(** * SDLAudioStream: the SDL3 audio output stream of the emulator

    A shallow embedding of [pcsx2/Host/SDLAudioStream.cpp].  The class
    [SDLAudioStream] is a record; its member functions take the object and
    return the updated object inside a small state-and-fault monad whose
    state is the rest of the process: the static [initialized] flag of
    [InitializeSDLAudio], the caller's [Error] slot and the trace of calls
    made to SDL, to the console and to the [AudioStream] base class. *)

From Stdlib Require Import ZArith List Bool String Lia.
Import ListNotations.
Local Open Scope Z_scope.

(** ** Machine integers *)

(** Conversion of an integer value to [u32]: reduction modulo 2^32. *)
Definition to_u32 (z : Z) : Z := z mod 2 ^ 32.

(** Conversion of an integer value to the 32-bit [int]: the value modulo
    2^32 that lies between -2^31 and 2^31 - 1. *)
Definition to_int (z : Z) : Z := (z + 2 ^ 31) mod 2 ^ 32 - 2 ^ 31.

(** Largest value of the C++ [int] that SDL passes to the callback. *)
Definition INT_MAX : Z := 2 ^ 31 - 1.

(** Modelled from the spec: [SampleType] is declared in AudioStream.h, which
    is not part of the sources at hand; the stream carries signed 16-bit
    samples (the code asks SDL for [SDL_AUDIO_S16]), so [sizeof(SampleType)]
    is 2. *)
Definition sizeof_SampleType : Z := 2.

(** ** Expansion modes and the sample readers *)

(** Modelled from the spec: the enumeration [AudioExpansionMode] is declared
    in AudioStream.h; the spec lists its six modes, in the order in which the
    comments of the reader table name them.  Its last enumerator, [Count], is
    the number of modes and is kept apart as [AudioExpansionMode_Count]. *)
Inductive AudioExpansionMode : Type :=
| Disabled
| StereoLFE
| Quadraphonic
| QuadraphonicLFE
| Surround51
| Surround71.

(** [static_cast<size_t>(mode)] *)
Definition mode_ordinal (m : AudioExpansionMode) : nat :=
  match m with
  | Disabled => 0
  | StereoLFE => 1
  | Quadraphonic => 2
  | QuadraphonicLFE => 3
  | Surround51 => 4
  | Surround71 => 5
  end%nat.

(** [static_cast<size_t>(AudioExpansionMode::Count)] *)
Definition AudioExpansionMode_Count : nat := 6.

(** The channel roles that instantiate [SampleReaderImpl]. *)
Inductive ReadChannel : Type :=
| READ_CHANNEL_FRONT_LEFT
| READ_CHANNEL_FRONT_RIGHT
| READ_CHANNEL_FRONT_CENTER
| READ_CHANNEL_LFE
| READ_CHANNEL_SIDE_LEFT
| READ_CHANNEL_SIDE_RIGHT
| READ_CHANNEL_REAR_LEFT
| READ_CHANNEL_REAR_RIGHT.

(** A [SampleReader] is a pointer to one of the reader functions: the stereo
    reader, or an instance of the template [SampleReaderImpl] at a mode and a
    list of channel roles. *)
Inductive SampleReader : Type :=
| StereoSampleReaderImpl
| SampleReaderImpl (mode : AudioExpansionMode) (channels : list ReadChannel).

(** The table [sample_readers] of [OpenDevice]. *)
Definition sample_readers : list SampleReader :=
  [ (* Disabled *)
    StereoSampleReaderImpl;
    (* StereoLFE *)
    SampleReaderImpl StereoLFE
      [READ_CHANNEL_FRONT_LEFT; READ_CHANNEL_FRONT_RIGHT; READ_CHANNEL_LFE];
    (* Quadraphonic *)
    SampleReaderImpl Quadraphonic
      [READ_CHANNEL_FRONT_LEFT; READ_CHANNEL_FRONT_RIGHT;
       READ_CHANNEL_REAR_LEFT; READ_CHANNEL_REAR_RIGHT];
    (* QuadraphonicLFE *)
    SampleReaderImpl QuadraphonicLFE
      [READ_CHANNEL_FRONT_LEFT; READ_CHANNEL_FRONT_RIGHT; READ_CHANNEL_LFE;
       READ_CHANNEL_REAR_LEFT; READ_CHANNEL_REAR_RIGHT];
    (* Surround51 *)
    SampleReaderImpl Surround51
      [READ_CHANNEL_FRONT_LEFT; READ_CHANNEL_FRONT_RIGHT;
       READ_CHANNEL_FRONT_CENTER; READ_CHANNEL_LFE;
       READ_CHANNEL_REAR_LEFT; READ_CHANNEL_REAR_RIGHT];
    (* Surround71 *)
    SampleReaderImpl Surround71
      [READ_CHANNEL_FRONT_LEFT; READ_CHANNEL_FRONT_RIGHT;
       READ_CHANNEL_FRONT_CENTER; READ_CHANNEL_LFE;
       READ_CHANNEL_SIDE_LEFT; READ_CHANNEL_SIDE_RIGHT;
       READ_CHANNEL_REAR_LEFT; READ_CHANNEL_REAR_RIGHT] ].

(** The mode a reader serves: the template argument, [Disabled] for the
    stereo reader. *)
Definition reader_mode (r : SampleReader) : AudioExpansionMode :=
  match r with
  | StereoSampleReaderImpl => Disabled
  | SampleReaderImpl m _ => m
  end.

(** ** The stream object *)

(** The fields of [AudioStreamParameters] that this file reads. *)
Record AudioStreamParameters : Type := mkParameters {
  expansion_mode : AudioExpansionMode;
  buffer_ms : Z;
  output_latency_ms : Z;
  minimal_output_latency : bool
}.

(** [SDL_AudioStream*]: [None] is [nullptr], [Some h] a stream of the
    backend. *)
Definition SDL_AudioStream_ptr : Type := option Z.

Definition SDL_AudioDeviceID : Type := Z.

(** The members of [SDLAudioStream]: those it inherits from [AudioStream] and
    uses here, then its own three.  The array owned by [m_sample_buffer] is
    represented by its number of [SampleType] elements, [None] being
    [nullptr]: its contents are written by [ReadFrames] alone, which belongs
    to the base class. *)
Record SDLAudioStream : Type := mkStream {
  m_sample_rate : Z;
  m_parameters : AudioStreamParameters;
  m_output_channels : Z;
  m_paused : bool;
  m_device_stream : SDL_AudioStream_ptr;
  m_sample_buffer : option Z;
  m_sample_buffer_size : Z
}.

Definition set_m_paused (b : bool) (s : SDLAudioStream) : SDLAudioStream :=
  mkStream (m_sample_rate s) (m_parameters s) (m_output_channels s) b
           (m_device_stream s) (m_sample_buffer s) (m_sample_buffer_size s).

Definition set_m_device_stream (d : SDL_AudioStream_ptr) (s : SDLAudioStream)
  : SDLAudioStream :=
  mkStream (m_sample_rate s) (m_parameters s) (m_output_channels s)
           (m_paused s) d (m_sample_buffer s) (m_sample_buffer_size s).

Definition set_m_sample_buffer (b : option Z) (s : SDLAudioStream)
  : SDLAudioStream :=
  mkStream (m_sample_rate s) (m_parameters s) (m_output_channels s)
           (m_paused s) (m_device_stream s) b (m_sample_buffer_size s).

Definition set_m_sample_buffer_size (n : Z) (s : SDLAudioStream)
  : SDLAudioStream :=
  mkStream (m_sample_rate s) (m_parameters s) (m_output_channels s)
           (m_paused s) (m_device_stream s) (m_sample_buffer s) n.

(** ** The collaborators: SDL and the [AudioStream] base class *)

Inductive SDL_AudioFormat : Type := SDL_AUDIO_S16.

Record SDL_AudioSpec : Type := mkSpec {
  format : SDL_AudioFormat;
  channels : Z;
  freq : Z
}.

(** What the backend answers, each result as the code reads it:
    [SDL_InitSubSystem] is compared with 0, the results of [SDL_SetHint] and
    [SDL_GetAudioDeviceFormat] are tested for truth, a null stream is a
    refused open.  [SDL_GetAudioDeviceFormat] takes the value its
    [sample_frames] out-parameter holds at the call and returns its result
    together with the value the parameter holds afterwards. *)
Record SDL : Type := mkSDL {
  SDL_InitSubSystem : Z;
  SDL_SetHint : Z -> bool;
  SDL_OpenAudioDeviceStream : SDL_AudioSpec -> SDL_AudioStream_ptr;
  SDL_GetAudioStreamDevice : SDL_AudioStream_ptr -> SDL_AudioDeviceID;
  SDL_GetAudioDeviceFormat : SDL_AudioDeviceID -> Z -> bool * Z;
  SDL_GetError : string
}.

(** What this file takes from the base class [AudioStream], whose sources are
    not at hand: the static [GetBufferSizeForMS] and the output channel count
    its constructor derives from the parameters. *)
Record AudioStreamBase : Type := mkBase {
  GetBufferSizeForMS : Z -> Z -> Z;
  output_channels_of : AudioStreamParameters -> Z
}.

(** ** Effects *)

Inductive Warning : Type :=
| Warn_SetHint_failed (sdl_error : string)
| Warn_GetAudioStreamDevice_failed (sdl_error : string)
| Warn_request_greater_than_buffer (num_frames buffer : Z).

(** One entry per call that leaves this file, in program order, and one for
    the store to [m_paused], the flag the control context publishes. *)
Inductive Event : Type :=
| Call_SDL_InitSubSystem
| Call_atexit_SDL_QuitSubSystem
| Call_SDL_SetHint (sample_frames : Z)
| Call_SDL_OpenAudioDeviceStream (spec : SDL_AudioSpec)
| Call_SDL_GetAudioStreamDevice (stream : SDL_AudioStream_ptr)
| Call_SDL_GetAudioDeviceFormat (device_id : SDL_AudioDeviceID)
| Call_SDL_PauseAudioDevice (device_id : SDL_AudioDeviceID)
| Call_SDL_ResumeAudioDevice (device_id : SDL_AudioDeviceID)
| Call_SDL_DestroyAudioStream (stream : SDL_AudioStream_ptr)
| Console_Warning (w : Warning)
| Dev_Log (requested obtained : Z)
| Call_BaseInitialize (reader : SampleReader) (stretch_enabled : bool)
| Call_ReadFrames (buffer : option Z) (num_frames : Z)
| Free_sample_buffer (elements : Z)
| Store_m_paused (b : bool).

Record World : Type := mkWorld {
  initialized : bool;
  error : option string;
  trace : list Event
}.

(** What C++ leaves undefined, or aborts on. *)
Inductive Fault : Type :=
| DivisionByZero
| AssertionFailed
| IndexOutOfRange.

Inductive Outcome (A : Type) : Type :=
| Done (a : A) (w : World)
| Stuck (f : Fault).
Arguments Done {A} a w.
Arguments Stuck {A} f.

Definition M (A : Type) : Type := World -> Outcome A.

Definition ret {A : Type} (a : A) : M A := fun w => Done a w.

Definition bind {A B : Type} (m : M A) (k : A -> M B) : M B :=
  fun w => match m w with
           | Done a w' => k a w'
           | Stuck f => Stuck f
           end.

Definition stuck {A : Type} (f : Fault) : M A := fun _ => Stuck f.

Declare Scope stream_scope.
Delimit Scope stream_scope with stream.
Notation "x <- m ;; k" := (bind m (fun x => k))
  (at level 61, m at next level, right associativity) : stream_scope.
Notation "m ;; k" := (bind m (fun _ => k))
  (at level 61, right associativity) : stream_scope.
Local Open Scope stream_scope.

(** The world after the events [es]. *)
Definition log (es : list Event) (w : World) : World :=
  mkWorld (initialized w) (error w) (trace w ++ es).

Definition set_error (msg : string) (w : World) : World :=
  mkWorld (initialized w) (Some msg) (trace w).

Definition emit (e : Event) : M unit := fun w => Done tt (log [e] w).

(** [Error::SetStringFmt(error, ...)] *)
Definition Error_SetString (msg : string) : M unit :=
  fun w => Done tt (set_error msg w).

Definition get_initialized : M bool := fun w => Done (initialized w) w.

Definition set_initialized (b : bool) : M unit :=
  fun w => Done tt (mkWorld b (error w) (trace w)).

(** [pxAssert(cond)]: a failed assertion stops the program. *)
Definition pxAssert (cond : bool) : M unit :=
  if cond then ret tt else stuck AssertionFailed.

(** ** The code *)

(** [IsOpen() const { return (m_device_stream != nullptr); }] *)
Definition IsOpen (s : SDLAudioStream) : bool :=
  match m_device_stream s with
  | Some _ => true
  | None => false
  end.

(** [u32 CalculateSampleCount(u32 bytes_len) const
       { return bytes_len / sizeof(SampleType) / m_output_channels; }]
    The argument is converted to [u32] at the call, the quotient back to
    [u32] at the return; a division by zero is undefined. *)
Definition CalculateSampleCount (s : SDLAudioStream) (bytes_len : Z) : M Z :=
  if m_output_channels s =? 0 then stuck DivisionByZero
  else ret (to_u32 (to_u32 bytes_len / sizeof_SampleType / m_output_channels s)).

Definition InitializeSDLAudio (sdl : SDL) : M bool :=
  init <- get_initialized ;;
  if init then ret true
  else
    emit Call_SDL_InitSubSystem ;;
    if negb (SDL_InitSubSystem sdl =? 0) then
      Error_SetString
        ("SDL_InitSubSystem(SDL_INIT_AUDIO) failed: " ++ SDL_GetError sdl) ;;
      ret false
    else
      emit Call_atexit_SDL_QuitSubSystem ;;
      set_initialized true ;;
      ret true.

(** The constructor: the base class is initialised from the sample rate and
    the parameters, the members of the derived class by their default member
    initialisers. *)
Definition SDLAudioStream_new (base : AudioStreamBase) (sample_rate : Z)
    (parameters : AudioStreamParameters) : SDLAudioStream :=
  mkStream sample_rate parameters (output_channels_of base parameters) false
           None None 0.

(** The latency, in milliseconds, that [OpenDevice] turns into the frame
    hint: the second argument of its call of [GetBufferSizeForMS]. *)
Definition hint_latency_ms (p : AudioStreamParameters) : Z :=
  if minimal_output_latency p then buffer_ms p else output_latency_ms p.

(** [u32 sample_frames = GetBufferSizeForMS(m_sample_rate, ...)] *)
Definition hint_sample_frames (base : AudioStreamBase) (s : SDLAudioStream) : Z :=
  to_u32 (GetBufferSizeForMS base (m_sample_rate s)
            (hint_latency_ms (m_parameters s))).

(** [spec.format = SDL_AUDIO_S16; spec.channels = m_output_channels;
    spec.freq = m_sample_rate;]: the two fields are [int], and the members
    assigned to them are converted. *)
Definition device_spec (s : SDLAudioStream) : SDL_AudioSpec :=
  mkSpec SDL_AUDIO_S16 (to_int (m_output_channels s)) (to_int (m_sample_rate s)).

(** [sample_readers[static_cast<size_t>(mode)]] *)
Definition select_reader (m : AudioExpansionMode) : M SampleReader :=
  match nth_error sample_readers (mode_ordinal m) with
  | Some r => ret r
  | None => stuck IndexOutOfRange
  end.

(** Assignment to the [unique_ptr] member: the array it owned is freed. *)
Definition assign_m_sample_buffer (b : option Z) (s : SDLAudioStream)
  : M SDLAudioStream :=
  match m_sample_buffer s with
  | Some n => emit (Free_sample_buffer n)
  | None => ret tt
  end ;;
  ret (set_m_sample_buffer b s).

Definition OpenDevice (sdl : SDL) (base : AudioStreamBase)
    (stretch_enabled : bool) (s : SDLAudioStream) : M (bool * SDLAudioStream) :=
  pxAssert (negb (IsOpen s)) ;;
  let sample_frames := hint_sample_frames base s in
  emit (Call_SDL_SetHint sample_frames) ;;
  (if SDL_SetHint sdl sample_frames then ret tt
   else emit (Console_Warning (Warn_SetHint_failed (SDL_GetError sdl)))) ;;
  let spec := device_spec s in
  emit (Call_SDL_OpenAudioDeviceStream spec) ;;
  let s := set_m_device_stream (SDL_OpenAudioDeviceStream sdl spec) s in
  match m_device_stream s with
  | None =>
    Error_SetString
      ("SDL_OpenAudioDeviceStream() failed: " ++ SDL_GetError sdl) ;;
    ret (false, s)
  | Some _ =>
    emit (Call_SDL_GetAudioStreamDevice (m_device_stream s)) ;;
    let device_id := SDL_GetAudioStreamDevice sdl (m_device_stream s) in
    emit (Call_SDL_GetAudioDeviceFormat device_id) ;;
    let '(ok, obtained_sample_frames) :=
      SDL_GetAudioDeviceFormat sdl device_id 0 in
    (if ok then emit (Dev_Log sample_frames obtained_sample_frames)
     else emit (Console_Warning
                  (Warn_GetAudioStreamDevice_failed (SDL_GetError sdl)))) ;;
    n <- CalculateSampleCount s obtained_sample_frames ;;
    let s := set_m_sample_buffer_size n s in
    s <- assign_m_sample_buffer (Some (m_sample_buffer_size s)) s ;;
    reader <- select_reader (expansion_mode (m_parameters s)) ;;
    emit (Call_BaseInitialize reader stretch_enabled) ;;
    ret (true, s)
  end.

Definition SetPaused (sdl : SDL) (paused : bool) (s : SDLAudioStream)
  : M SDLAudioStream :=
  if Bool.eqb (m_paused s) paused then ret s
  else
    emit (Call_SDL_GetAudioStreamDevice (m_device_stream s)) ;;
    let device_id := SDL_GetAudioStreamDevice sdl (m_device_stream s) in
    (if paused then emit (Call_SDL_PauseAudioDevice device_id)
     else emit (Call_SDL_ResumeAudioDevice device_id)) ;;
    emit (Store_m_paused paused) ;;
    ret (set_m_paused paused s).

Definition CloseDevice (s : SDLAudioStream) : M SDLAudioStream :=
  emit (Call_SDL_DestroyAudioStream (m_device_stream s)) ;;
  let s := set_m_device_stream None s in
  let s := set_m_sample_buffer_size 0 s in
  ret s.

(** [~SDLAudioStream()]: the body, then the destruction of the members, which
    frees the array [m_sample_buffer] owns.  The object returned is what is
    left of it. *)
Definition SDLAudioStream_delete (s : SDLAudioStream) : M SDLAudioStream :=
  s <- (if IsOpen s then CloseDevice s else ret s) ;;
  assign_m_sample_buffer None s.

Definition CreateSDLAudioStream (sdl : SDL) (base : AudioStreamBase)
    (sample_rate : Z) (parameters : AudioStreamParameters)
    (stretch_enabled : bool) : M (option SDLAudioStream) :=
  ok <- InitializeSDLAudio sdl ;;
  if negb ok then ret None
  else
    let stream := SDLAudioStream_new base sample_rate parameters in
    r <- OpenDevice sdl base stretch_enabled stream ;;
    let '(opened, stream) := r in
    if negb opened then
      SDLAudioStream_delete stream ;;
      ret None
    else ret (Some stream).

(** [AudioCallback(userdata, stream, additional_amount, total_amount)], with
    [this_ptr] the object behind [userdata]. *)
Definition AudioCallback (this_ptr : SDLAudioStream) (additional_amount : Z)
  : M unit :=
  num_frames <- CalculateSampleCount this_ptr additional_amount ;;
  num_frames <-
    (if num_frames >? m_sample_buffer_size this_ptr then
       emit (Console_Warning
               (Warn_request_greater_than_buffer
                  num_frames (m_sample_buffer_size this_ptr))) ;;
       ret (m_sample_buffer_size this_ptr)
     else ret num_frames) ;;
  emit (Call_ReadFrames (m_sample_buffer this_ptr) num_frames).

(** ** Reading a trace *)

(** The frame counts of the calls of [ReadFrames], in order. *)
Fixpoint frames_pulled (t : list Event) : list Z :=
  match t with
  | [] => []
  | Call_ReadFrames _ n :: t' => n :: frames_pulled t'
  | _ :: t' => frames_pulled t'
  end.

(** The frame hints handed to [SDL_SetHint], in order. *)
Fixpoint hints_given (t : list Event) : list Z :=
  match t with
  | [] => []
  | Call_SDL_SetHint n :: t' => n :: hints_given t'
  | _ :: t' => hints_given t'
  end.

Definition is_pause_call (e : Event) : bool :=
  match e with
  | Call_SDL_PauseAudioDevice _ => true
  | _ => false
  end.

(** How many times the backend was told to pause. *)
Definition pause_calls (t : list Event) : nat :=
  List.length (filter is_pause_call t).

(** ** The producer and the sizing policy, from the spec *)

(** Modelled from the spec: [ReadFrames(buffer, frameCount)] is a member of
    the base class and is not in the sources at hand.  It fills exactly
    [frameCount] frames, and a frame is one sample per output channel, the
    frame [CalculateSampleCount] divides a byte length by: this is the number
    of [SampleType] elements it writes from the start of the buffer. *)
Definition ReadFrames_samples_written (s : SDLAudioStream) (num_frames : Z) : Z :=
  num_frames * m_output_channels s.

(** A call [ReadFrames(m_sample_buffer.get(), num_frames)] stays inside the
    array the stream owns. *)
Definition ReadFrames_within_buffer (s : SDLAudioStream) (num_frames : Z) : bool :=
  match m_sample_buffer s with
  | Some elements => ReadFrames_samples_written s num_frames <=? elements
  | None => ReadFrames_samples_written s num_frames =? 0
  end.

(** Modelled from the spec: [RequiredFrames(sampleRate, latencyMs)] is
    [ceil(sampleRate * latencyMs / 1000)]; it stands for the absent
    [GetBufferSizeForMS] where a concrete sizing policy is run. *)
Definition RequiredFrames (sample_rate latency_ms : Z) : Z :=
  (sample_rate * latency_ms + 999) / 1000.

(** Modelled from the spec: the output channel count is consistent with the
    expansion mode; it is the number of channel roles of the mode's reader,
    two for the stereo reader. *)
Definition mode_channels (p : AudioStreamParameters) : Z :=
  match expansion_mode p with
  | Disabled => 2
  | StereoLFE => 3
  | Quadraphonic => 4
  | QuadraphonicLFE => 5
  | Surround51 => 6
  | Surround71 => 8
  end.

(** ** Concrete collaborators, for running the code *)

Definition base_example : AudioStreamBase := mkBase RequiredFrames mode_channels.

(** A backend that opens stream 1 on device 2 and negotiates 1024 frames. *)
Definition sdl_example : SDL :=
  mkSDL 0 (fun _ => true) (fun _ => Some 1)
        (fun p => match p with Some _ => 2 | None => 0 end)
        (fun _ _ => (true, 1024)) "no error".

(** A backend that refuses to open the device stream. *)
Definition sdl_rejecting : SDL :=
  mkSDL 0 (fun _ => true) (fun _ => None)
        (fun p => match p with Some _ => 2 | None => 0 end)
        (fun _ _ => (true, 1024)) "no audio device".

(** A backend whose audio subsystem does not come up. *)
Definition sdl_uninitialized : SDL :=
  mkSDL (-1) (fun _ => true) (fun _ => Some 1)
        (fun p => match p with Some _ => 2 | None => 0 end)
        (fun _ _ => (true, 1024)) "no audio driver".

(** A backend that opens the stream but fails the format query, leaving the
    out-parameter as it found it. *)
Definition sdl_no_format : SDL :=
  mkSDL 0 (fun _ => true) (fun _ => Some 1)
        (fun p => match p with Some _ => 2 | None => 0 end)
        (fun _ current => (false, current)) "invalid device".

(** Stereo, 50 ms of buffer, 20 ms of output latency. *)
Definition params_example : AudioStreamParameters :=
  mkParameters Disabled 50 20 false.

Definition params_minimal : AudioStreamParameters :=
  mkParameters Disabled 50 20 true.

Definition params_surround51 : AudioStreamParameters :=
  mkParameters Surround51 50 20 false.

(** A process that has not touched SDL yet. *)
Definition world0 : World := mkWorld false None [].

(** The stream that [CreateSDLAudioStream] returns for [params_example] at
    48 kHz on [sdl_example]. *)
Definition stream_example : SDLAudioStream :=
  mkStream 48000 params_example 2 false (Some 1) (Some 256) 256.

(** A 5.1 stream with room for 1024 frames. *)
Definition stream_surround51 : SDLAudioStream :=
  mkStream 48000 params_surround51 6 false (Some 1) (Some 1024) 1024.

(** The events with which [OpenDevice] hands the hint [h] to the backend. *)
Definition hint_events (sdl : SDL) (h : Z) : list Event :=
  Call_SDL_SetHint h ::
  (if SDL_SetHint sdl h then []
   else [Console_Warning (Warn_SetHint_failed (SDL_GetError sdl))]).

(** The frame count [AudioCallback] derives from the requested byte length. *)
Definition frames_requested (s : SDLAudioStream) (additional_amount : Z) : Z :=
  to_u32 additional_amount / sizeof_SampleType / m_output_channels s.

(** ** More readings of a trace, and callers that run several calls *)

Definition count_events (p : Event -> bool) (t : list Event) : nat :=
  List.length (filter p t).

Definition is_init_call (e : Event) : bool :=
  match e with
  | Call_SDL_InitSubSystem => true
  | _ => false
  end.

Definition is_atexit_call (e : Event) : bool :=
  match e with
  | Call_atexit_SDL_QuitSubSystem => true
  | _ => false
  end.

(** The streams handed to [SDL_DestroyAudioStream], in order. *)
Definition destroyed (t : list Event) : list SDL_AudioStream_ptr :=
  flat_map (fun e => match e with
                     | Call_SDL_DestroyAudioStream p => [p]
                     | _ => []
                     end) t.

(** The element counts of the sample arrays freed, in order. *)
Definition freed (t : list Event) : list Z :=
  flat_map (fun e => match e with
                     | Free_sample_buffer n => [n]
                     | _ => []
                     end) t.

(** The formats for which a device stream was requested, in order. *)
Definition devices_requested (t : list Event) : list SDL_AudioSpec :=
  flat_map (fun e => match e with
                     | Call_SDL_OpenAudioDeviceStream spec => [spec]
                     | _ => []
                     end) t.

(** The arguments of the calls of [BaseInitialize], in order. *)
Definition base_initializations (t : list Event) : list (SampleReader * bool) :=
  flat_map (fun e => match e with
                     | Call_BaseInitialize r stretch => [(r, stretch)]
                     | _ => []
                     end) t.

(** The console warnings, in order. *)
Definition warnings (t : list Event) : list Warning :=
  flat_map (fun e => match e with
                     | Console_Warning x => [x]
                     | _ => []
                     end) t.

(** The devices the backend was told to pause ([true]) or resume ([false]),
    in order. *)
Definition toggles (t : list Event) : list (bool * SDL_AudioDeviceID) :=
  flat_map (fun e => match e with
                     | Call_SDL_PauseAudioDevice d => [(true, d)]
                     | Call_SDL_ResumeAudioDevice d => [(false, d)]
                     | _ => []
                     end) t.

(** A control context that calls [SetPaused] with each state of [requests]
    in turn. *)
Fixpoint SetPaused_each (sdl : SDL) (requests : list bool) (s : SDLAudioStream)
  : M SDLAudioStream :=
  match requests with
  | [] => ret s
  | paused :: rest =>
    s <- SetPaused sdl paused s ;;
    SetPaused_each sdl rest s
  end.

(** How many states of [requests] differ from the state before them, the
    first one from [current]. *)
Fixpoint transitions (current : bool) (requests : list bool) : nat :=
  match requests with
  | [] => 0
  | paused :: rest =>
    ((if Bool.eqb current paused then 0 else 1) + transitions paused rest)%nat
  end.

(** * Properties *)

(** ** Worlds and traces *)

Lemma log_log (a b : list Event) (w : World) :
  log b (log a w) = log (a ++ b) w.
Proof.
  unfold log; simpl. now rewrite app_assoc.
Qed.

Lemma trace_log (es : list Event) (w : World) : trace (log es w) = trace w ++ es.
Proof. reflexivity. Qed.

Lemma frames_pulled_app (a b : list Event) :
  frames_pulled (a ++ b) = frames_pulled a ++ frames_pulled b.
Proof.
  induction a as [|e a IH]; simpl; [reflexivity|].
  destruct e; simpl; now rewrite ?IH.
Qed.

Lemma hints_given_app (a b : list Event) :
  hints_given (a ++ b) = hints_given a ++ hints_given b.
Proof.
  induction a as [|e a IH]; simpl; [reflexivity|].
  destruct e; simpl; now rewrite ?IH.
Qed.

Lemma pause_calls_app (a b : list Event) :
  pause_calls (a ++ b) = (pause_calls a + pause_calls b)%nat.
Proof.
  unfold pause_calls. now rewrite filter_app, length_app.
Qed.

(** ** Machine integers *)

Lemma to_u32_range (z : Z) : 0 <= to_u32 z < 2 ^ 32.
Proof. unfold to_u32. apply Z.mod_pos_bound. lia. Qed.

Lemma to_u32_small (z : Z) : 0 <= z < 2 ^ 32 -> to_u32 z = z.
Proof. intros H. unfold to_u32. now apply Z.mod_small. Qed.

Lemma to_u32_int (z : Z) : 0 <= z <= INT_MAX -> to_u32 z = z.
Proof. unfold INT_MAX. intros H. apply to_u32_small. lia. Qed.

Lemma frames_requested_range (s : SDLAudioStream) (b : Z) :
  0 < m_output_channels s -> 0 <= frames_requested s b < 2 ^ 32.
Proof.
  intros Hc. unfold frames_requested, sizeof_SampleType.
  pose proof (to_u32_range b) as Hb.
  assert (H2 : 0 <= to_u32 b / 2 < 2 ^ 32).
  { split; [apply Z.div_pos; lia|]. apply Z.div_lt_upper_bound; lia. }
  split; [apply Z.div_pos; lia|].
  apply Z.div_lt_upper_bound; [lia|]. nia.
Qed.

(** ** The code, run *)

Lemma CalculateSampleCount_run (s : SDLAudioStream) (bytes_len : Z) (w : World) :
  0 < m_output_channels s ->
  CalculateSampleCount s bytes_len w = Done (frames_requested s bytes_len) w.
Proof.
  intros Hc. unfold CalculateSampleCount.
  destruct (Z.eqb_spec (m_output_channels s) 0) as [E|_]; [lia|].
  unfold ret. f_equal.
  apply to_u32_small. now apply frames_requested_range.
Qed.

Lemma CalculateSampleCount_zero_channels (s : SDLAudioStream) (bytes_len : Z)
    (w : World) :
  m_output_channels s = 0 ->
  CalculateSampleCount s bytes_len w = Stuck DivisionByZero.
Proof.
  intros E. unfold CalculateSampleCount. now rewrite E.
Qed.

Lemma AudioCallback_run (s : SDLAudioStream) (additional_amount : Z) (w : World) :
  0 < m_output_channels s ->
  AudioCallback s additional_amount w =
  Done tt
    (log ((if frames_requested s additional_amount >? m_sample_buffer_size s
           then [Console_Warning
                   (Warn_request_greater_than_buffer
                      (frames_requested s additional_amount)
                      (m_sample_buffer_size s))]
           else []) ++
          [Call_ReadFrames (m_sample_buffer s)
             (Z.min (frames_requested s additional_amount)
                    (m_sample_buffer_size s))]) w).
Proof.
  intros Hc. unfold AudioCallback, bind.
  rewrite CalculateSampleCount_run by assumption.
  destruct (Z.gtb_spec (frames_requested s additional_amount)
                       (m_sample_buffer_size s)) as [Hgt|Hle].
  - unfold emit, ret. rewrite log_log. simpl.
    now rewrite Z.min_r by lia.
  - unfold emit, ret. simpl.
    now rewrite Z.min_l by lia.
Qed.

(** Every callback pulls the smaller of the derived frame count and the
    recorded size, in one call of [ReadFrames]. *)
Lemma AudioCallback_pulls_min (s : SDLAudioStream) (additional_amount : Z)
    (w : World) :
  0 < m_output_channels s ->
  exists w',
    AudioCallback s additional_amount w = Done tt w' /\
    frames_pulled (trace w') =
    frames_pulled (trace w) ++
    [Z.min (frames_requested s additional_amount) (m_sample_buffer_size s)].
Proof.
  intros Hc. eexists. split; [now apply AudioCallback_run|].
  rewrite trace_log, !frames_pulled_app.
  now destruct (_ >? _).
Qed.

Lemma set_m_device_stream_closed (s : SDLAudioStream) :
  IsOpen s = false -> set_m_device_stream None s = s.
Proof.
  destruct s as [r p c pa d b n]. unfold IsOpen, set_m_device_stream; simpl.
  destruct d; [discriminate|reflexivity].
Qed.

Lemma select_reader_run (m : AudioExpansionMode) (w : World) :
  exists r,
    nth_error sample_readers (mode_ordinal m) = Some r /\
    reader_mode r = m /\
    select_reader m w = Done r w.
Proof.
  destruct m; eexists; (split; [reflexivity|split; reflexivity]).
Qed.

Section Open.

Variables (sdl : SDL) (base : AudioStreamBase).

(** [OpenDevice] when the backend refuses the device stream. *)
Lemma OpenDevice_rejected (stretch_enabled : bool) (s : SDLAudioStream)
    (w : World) :
  IsOpen s = false ->
  SDL_OpenAudioDeviceStream sdl (device_spec s) = None ->
  OpenDevice sdl base stretch_enabled s w =
  Done (false, s)
    (set_error ("SDL_OpenAudioDeviceStream() failed: " ++ SDL_GetError sdl)
       (log (hint_events sdl (hint_sample_frames base s) ++
             [Call_SDL_OpenAudioDeviceStream (device_spec s)]) w)).
Proof.
  intros Hclosed Hopen. unfold OpenDevice, bind.
  rewrite Hclosed, Hopen. simpl.
  rewrite (set_m_device_stream_closed s Hclosed).
  unfold hint_events.
  destruct (SDL_SetHint sdl (hint_sample_frames base s)); simpl;
    unfold Error_SetString; rewrite ?log_log; reflexivity.
Qed.

(** The events of [OpenDevice] once the backend has opened the stream [h]. *)
Lemma OpenDevice_opened (stretch_enabled : bool) (s : SDLAudioStream)
    (w : World) (h : Z) :
  IsOpen s = false ->
  SDL_OpenAudioDeviceStream sdl (device_spec s) = Some h ->
  0 < m_output_channels s ->
  let d := SDL_GetAudioStreamDevice sdl (Some h) in
  let q := SDL_GetAudioDeviceFormat sdl d 0 in
  let n := to_u32 (snd q) / sizeof_SampleType / m_output_channels s in
  exists reader,
    nth_error sample_readers (mode_ordinal (expansion_mode (m_parameters s)))
      = Some reader /\
    OpenDevice sdl base stretch_enabled s w =
    Done (true,
          mkStream (m_sample_rate s) (m_parameters s) (m_output_channels s)
                   (m_paused s) (Some h) (Some n) n)
      (log (hint_events sdl (hint_sample_frames base s) ++
            [Call_SDL_OpenAudioDeviceStream (device_spec s);
             Call_SDL_GetAudioStreamDevice (Some h);
             Call_SDL_GetAudioDeviceFormat d;
             if fst q then Dev_Log (hint_sample_frames base s) (snd q)
             else Console_Warning
                    (Warn_GetAudioStreamDevice_failed (SDL_GetError sdl))] ++
            match m_sample_buffer s with
            | Some k => [Free_sample_buffer k]
            | None => []
            end ++
            [Call_BaseInitialize reader stretch_enabled]) w).
Proof.
  intros Hclosed Hopen Hc d q n.
  destruct (select_reader_run (expansion_mode (m_parameters s)) w)
    as (reader & Hnth & _ & _).
  exists reader. split; [exact Hnth|].
  unfold OpenDevice, bind. rewrite Hclosed, Hopen. simpl.
  fold d. fold q. destruct q as [ok obtained] eqn:Eq. simpl in n.
  set (s1 := set_m_device_stream (Some h) s).
  assert (Hc1 : 0 < m_output_channels s1) by exact Hc.
  assert (Hrun : forall w1, CalculateSampleCount s1 obtained w1 = Done n w1).
  { intros w1. now rewrite CalculateSampleCount_run. }
  unfold hint_events, select_reader, assign_m_sample_buffer, bind.
  destruct (SDL_SetHint sdl (hint_sample_frames base s));
    destruct ok; unfold emit, ret; rewrite Hrun; subst s1;
    cbn [m_sample_buffer set_m_sample_buffer set_m_sample_buffer_size
         set_m_device_stream];
    destruct (m_sample_buffer s) as [k|];
    cbn [m_sample_buffer m_parameters set_m_sample_buffer
         set_m_sample_buffer_size set_m_device_stream m_sample_rate
         m_output_channels m_paused m_device_stream m_sample_buffer_size
         fst snd];
    rewrite Hnth, ?log_log; reflexivity.
Qed.

End Open.

Lemma SetPaused_same (sdl : SDL) (b : bool) (s : SDLAudioStream) (w : World) :
  b = m_paused s -> SetPaused sdl b s w = Done s w.
Proof.
  intros ->. unfold SetPaused. now rewrite Bool.eqb_reflx.
Qed.

Lemma SetPaused_toggle (sdl : SDL) (b : bool) (s : SDLAudioStream) (w : World) :
  b <> m_paused s ->
  SetPaused sdl b s w =
  Done (set_m_paused b s)
    (log [Call_SDL_GetAudioStreamDevice (m_device_stream s);
          if b
          then Call_SDL_PauseAudioDevice
                 (SDL_GetAudioStreamDevice sdl (m_device_stream s))
          else Call_SDL_ResumeAudioDevice
                 (SDL_GetAudioStreamDevice sdl (m_device_stream s));
          Store_m_paused b] w).
Proof.
  intros Hne. unfold SetPaused, bind.
  destruct (Bool.eqb (m_paused s) b) eqn:E.
  - apply Bool.eqb_prop in E. congruence.
  - destruct b; unfold emit, ret; rewrite !log_log; reflexivity.
Qed.

Lemma CloseDevice_run (s : SDLAudioStream) (w : World) :
  CloseDevice s w =
  Done (mkStream (m_sample_rate s) (m_parameters s) (m_output_channels s)
                 (m_paused s) None (m_sample_buffer s) 0)
       (log [Call_SDL_DestroyAudioStream (m_device_stream s)] w).
Proof. reflexivity. Qed.

Lemma InitializeSDLAudio_fails (sdl : SDL) (w : World) :
  initialized w = false ->
  SDL_InitSubSystem sdl <> 0 ->
  InitializeSDLAudio sdl w =
  Done false
    (set_error
       ("SDL_InitSubSystem(SDL_INIT_AUDIO) failed: " ++ SDL_GetError sdl)
       (log [Call_SDL_InitSubSystem] w)).
Proof.
  intros Hi Hne. unfold InitializeSDLAudio, bind, get_initialized.
  rewrite Hi. unfold emit.
  destruct (Z.eqb_spec (SDL_InitSubSystem sdl) 0) as [E|_]; [contradiction|].
  reflexivity.
Qed.

Lemma InitializeSDLAudio_succeeds (sdl : SDL) (w : World) :
  initialized w = true \/ SDL_InitSubSystem sdl = 0 ->
  exists w',
    InitializeSDLAudio sdl w = Done true w' /\
    initialized w' = true /\
    error w' = error w.
Proof.
  intros H. unfold InitializeSDLAudio, bind, get_initialized.
  destruct (initialized w) eqn:Hi.
  - exists w. now rewrite Hi.
  - destruct H as [H|H]; [discriminate|].
    rewrite H. simpl. eexists. split; [reflexivity|]. split; reflexivity.
Qed.

(** ** The callback bridge *)

(** An array of as many samples as the recorded size holds cannot take that
    many frames when a frame has two samples or more. *)
Lemma ReadFrames_overruns_full_buffer (s : SDLAudioStream) :
  m_sample_buffer s = Some (m_sample_buffer_size s) ->
  1 < m_output_channels s ->
  0 < m_sample_buffer_size s ->
  ReadFrames_within_buffer s (m_sample_buffer_size s) = false.
Proof.
  intros Hb Hc Hn. unfold ReadFrames_within_buffer, ReadFrames_samples_written.
  rewrite Hb. apply Z.leb_gt. nia.
Qed.

(** C1: the callback pulls the smaller of the derived frame count and the
    recorded size, yet it writes past the scratch buffer.  On the stereo
    stream that [CreateSDLAudioStream] returns when the backend negotiates
    1024 frames, the array has 256 samples and the recorded size is 256; a
    request of 1024 bytes is 256 frames, within the recorded size, and
    [ReadFrames] is asked for 256 frames, which are 512 samples. *)
Theorem C1_callback_writes_past_sample_buffer :
  (exists w,
     CreateSDLAudioStream sdl_example base_example 48000 params_example false
       world0 = Done (Some stream_example) w) /\
  m_sample_buffer stream_example = Some 256 /\
  Z.min (frames_requested stream_example 1024)
        (m_sample_buffer_size stream_example) = 256 /\
  AudioCallback stream_example 1024 world0 =
    Done tt (log [Call_ReadFrames (Some 256) 256] world0) /\
  ReadFrames_samples_written stream_example 256 = 512 /\
  ReadFrames_within_buffer stream_example 256 = false.
Proof.
  split; [eexists; cbv; reflexivity|].
  repeat split; reflexivity.
Qed.

(** C3: the callback converts the requested byte length to frames as the
    length divided by the two bytes of a sample, then by the output channel
    count, both integer divisions, and pulls that many frames when the
    recorded size permits; 2048 bytes on six channels are 170 frames. *)
Theorem C3_callback_bytes_to_frames (s : SDLAudioStream) (w : World) :
  0 < m_output_channels s ->
  (forall additional_amount,
     0 <= additional_amount <= INT_MAX ->
     let frames :=
       additional_amount / sizeof_SampleType / m_output_channels s in
     CalculateSampleCount s additional_amount w = Done frames w /\
     (frames <= m_sample_buffer_size s ->
      AudioCallback s additional_amount w =
      Done tt (log [Call_ReadFrames (m_sample_buffer s) frames] w))) /\
  (m_output_channels s = 6 ->
   CalculateSampleCount s 2048 w = Done 170 w /\
   (170 <= m_sample_buffer_size s ->
    AudioCallback s 2048 w =
    Done tt (log [Call_ReadFrames (m_sample_buffer s) 170] w))).
Proof.
  intros Hc.
  assert (Hgen : forall a, 0 <= a <= INT_MAX ->
            frames_requested s a = a / sizeof_SampleType / m_output_channels s).
  { intros a Ha. unfold frames_requested. now rewrite to_u32_int. }
  assert (Hcb : forall a, 0 <= a <= INT_MAX ->
            a / sizeof_SampleType / m_output_channels s
              <= m_sample_buffer_size s ->
            AudioCallback s a w =
            Done tt (log [Call_ReadFrames (m_sample_buffer s)
                            (a / sizeof_SampleType / m_output_channels s)] w)).
  { intros a Ha Hle. rewrite AudioCallback_run by assumption.
    rewrite (Hgen a Ha).
    destruct (Z.gtb_spec (a / sizeof_SampleType / m_output_channels s)
                         (m_sample_buffer_size s)) as [Hgt|_]; [lia|].
    now rewrite Z.min_l by lia. }
  split.
  - intros a Ha frames. split.
    + rewrite CalculateSampleCount_run by assumption. now rewrite Hgen.
    + now apply Hcb.
  - intros H6.
    assert (H170 : 2048 / sizeof_SampleType / m_output_channels s = 170)
      by now rewrite H6.
    assert (Hr : 0 <= 2048 <= INT_MAX) by (unfold INT_MAX; lia).
    split.
    + rewrite CalculateSampleCount_run by assumption.
      now rewrite (Hgen 2048 Hr), H170.
    + intros Hle. rewrite <- H170. apply Hcb; [exact Hr|]. now rewrite H170.
Qed.

Lemma C3_callback_bytes_to_frames_witness :
  CalculateSampleCount stream_surround51 2048 world0 = Done 170 world0 /\
  AudioCallback stream_surround51 2048 world0 =
  Done tt (log [Call_ReadFrames (Some 1024) 170] world0).
Proof.
  destruct (C3_callback_bytes_to_frames stream_surround51 world0)
    as [_ H6]; [reflexivity|].
  destruct (H6 eq_refl) as [Hcount Hcall].
  split; [exact Hcount|].
  apply Hcall. simpl. lia.
Defined.

(** ** Opening the device *)

(** What [OpenDevice] records for a negotiated granularity of [g] frames is
    always less than [g], unless [g] is zero. *)
Lemma recorded_size_below_granularity (s : SDLAudioStream) (g : Z) :
  0 < m_output_channels s ->
  0 < g < 2 ^ 32 ->
  frames_requested s g < g.
Proof.
  intros Hc Hg. unfold frames_requested, sizeof_SampleType.
  rewrite to_u32_small by lia.
  apply Z.le_lt_trans with (g / 2).
  - apply Z.div_le_upper_bound; [lia|].
    assert (0 <= g / 2) by (apply Z.div_pos; lia). nia.
  - apply Z.div_lt_upper_bound; lia.
Qed.

(** C2: the recorded size of the scratch buffer is not the negotiated
    granularity.  With 48 kHz, two channels, mode Disabled and 20 ms of
    latency the hint is 960 frames; the backend negotiates 1024 frames, and
    [OpenDevice] passes them to [CalculateSampleCount] as if they were bytes:
    the recorded size, and the length of the array, is 1024 / 2 / 2 = 256. *)
Theorem C2_scratch_capacity_after_negotiation :
  hint_sample_frames base_example
    (SDLAudioStream_new base_example 48000 params_example) = 960 /\
  SDL_GetAudioDeviceFormat sdl_example
    (SDL_GetAudioStreamDevice sdl_example (Some 1)) 0 = (true, 1024) /\
  exists s w,
    OpenDevice sdl_example base_example false
      (SDLAudioStream_new base_example 48000 params_example) world0
    = Done (true, s) w /\
    hints_given (trace w) = [960] /\
    m_sample_buffer_size s = 256 /\
    m_sample_buffer s = Some 256 /\
    m_sample_buffer_size s <> 1024.
Proof.
  split; [reflexivity|]. split; [reflexivity|].
  eexists. eexists. split; [cbv; reflexivity|].
  repeat split; try reflexivity. discriminate.
Qed.

(** C4: when the backend refuses the device stream, [OpenDevice] returns
    false with the error set and leaves the closed stream exactly as it
    found it; on the stream that [CreateSDLAudioStream] has just constructed
    that is no device handle, no scratch buffer and size zero.
    [CreateSDLAudioStream] then returns no object, as it does, with the error
    set, when the audio subsystem does not come up. *)
Theorem C4_failed_open_leaves_stream_closed (sdl : SDL) (base : AudioStreamBase)
    (sample_rate : Z) (parameters : AudioStreamParameters)
    (stretch_enabled : bool) (w : World) :
  let s0 := SDLAudioStream_new base sample_rate parameters in
  (forall s,
     IsOpen s = false ->
     SDL_OpenAudioDeviceStream sdl (device_spec s) = None ->
     exists w',
       OpenDevice sdl base stretch_enabled s w = Done (false, s) w' /\
       error w' =
         Some ("SDL_OpenAudioDeviceStream() failed: " ++ SDL_GetError sdl)%string) /\
  (IsOpen s0 = false /\
   m_device_stream s0 = None /\
   m_sample_buffer s0 = None /\
   m_sample_buffer_size s0 = 0) /\
  (SDL_OpenAudioDeviceStream sdl (device_spec s0) = None ->
   initialized w = true \/ SDL_InitSubSystem sdl = 0 ->
   exists w',
     CreateSDLAudioStream sdl base sample_rate parameters stretch_enabled w
       = Done None w' /\
     error w' =
       Some ("SDL_OpenAudioDeviceStream() failed: " ++ SDL_GetError sdl)%string) /\
  (initialized w = false ->
   SDL_InitSubSystem sdl <> 0 ->
   exists w',
     CreateSDLAudioStream sdl base sample_rate parameters stretch_enabled w
       = Done None w' /\
     error w' =
       Some ("SDL_InitSubSystem(SDL_INIT_AUDIO) failed: " ++ SDL_GetError sdl)%string).
Proof.
  intros s0. split; [|split; [|split]].
  - intros s Hclosed Hrej.
    eexists. split; [now apply OpenDevice_rejected|reflexivity].
  - repeat split; reflexivity.
  - intros Hrej Hinit.
    destruct (InitializeSDLAudio_succeeds sdl w Hinit) as (w1 & Hrun & _ & _).
    unfold CreateSDLAudioStream, bind. rewrite Hrun. simpl.
    fold s0. rewrite (OpenDevice_rejected sdl base stretch_enabled s0 w1)
      by (reflexivity || assumption).
    simpl. eexists. split; reflexivity.
  - intros Hi Hne.
    unfold CreateSDLAudioStream, bind.
    rewrite InitializeSDLAudio_fails by assumption.
    simpl. eexists. split; reflexivity.
Qed.

Lemma C4_failed_open_leaves_stream_closed_witness :
  (exists w',
     OpenDevice sdl_rejecting base_example false
       (SDLAudioStream_new base_example 48000 params_example) world0
     = Done (false, SDLAudioStream_new base_example 48000 params_example) w' /\
     error w' = Some "SDL_OpenAudioDeviceStream() failed: no audio device"%string) /\
  (exists w',
     CreateSDLAudioStream sdl_rejecting base_example 48000 params_example
       false world0 = Done None w' /\
     error w' = Some "SDL_OpenAudioDeviceStream() failed: no audio device"%string) /\
  (exists w',
     CreateSDLAudioStream sdl_uninitialized base_example 48000 params_example
       false world0 = Done None w' /\
     error w' =
       Some "SDL_InitSubSystem(SDL_INIT_AUDIO) failed: no audio driver"%string).
Proof.
  pose proof (C4_failed_open_leaves_stream_closed sdl_rejecting base_example
                48000 params_example false world0) as (Hopen & _ & Hcreate & _).
  pose proof (C4_failed_open_leaves_stream_closed sdl_uninitialized
                base_example 48000 params_example false world0)
    as (_ & _ & _ & Hinit).
  split; [apply Hopen; reflexivity|].
  split; [apply Hcreate; [reflexivity|right; reflexivity]|].
  apply Hinit; [reflexivity|discriminate].
Defined.

(** C5, as the code has it: on every open the hint handed to the backend is
    computed from one of the two configured durations, [buffer_ms] when the
    minimal-latency flag is set and [output_latency_ms] when it is not, and
    the other one plays no part. *)
Theorem C5_hint_from_one_latency_source (sdl : SDL) (base : AudioStreamBase)
    (stretch_enabled : bool) (s : SDLAudioStream) (w : World) :
  IsOpen s = false ->
  0 < m_output_channels s ->
  (exists r w',
     OpenDevice sdl base stretch_enabled s w = Done r w' /\
     hints_given (trace w') =
     hints_given (trace w) ++ [hint_sample_frames base s]) /\
  (minimal_output_latency (m_parameters s) = true ->
   hint_sample_frames base s =
   to_u32 (GetBufferSizeForMS base (m_sample_rate s)
             (buffer_ms (m_parameters s)))) /\
  (minimal_output_latency (m_parameters s) = false ->
   hint_sample_frames base s =
   to_u32 (GetBufferSizeForMS base (m_sample_rate s)
             (output_latency_ms (m_parameters s)))).
Proof.
  intros Hclosed Hc.
  assert (Hh : forall tail,
            (forall e, In e tail -> match e with
                                    | Call_SDL_SetHint _ => False
                                    | _ => True
                                    end) ->
            hints_given tail = []).
  { induction tail as [|e tail IH]; intros Hall; [reflexivity|].
    pose proof (Hall e (or_introl eq_refl)) as He.
    destruct e; simpl; try contradiction;
      apply IH; intros e' Hin; apply Hall; now right. }
  assert (Hev : hints_given (hint_events sdl (hint_sample_frames base s))
                = [hint_sample_frames base s]).
  { unfold hint_events. now destruct (SDL_SetHint sdl _). }
  split; [|split].
  - destruct (SDL_OpenAudioDeviceStream sdl (device_spec s)) as [h|] eqn:Ho.
    + destruct (OpenDevice_opened sdl base stretch_enabled s w h Hclosed Ho Hc)
        as (reader & _ & Hrun).
      eexists. eexists. split; [exact Hrun|].
      rewrite trace_log, !hints_given_app, Hev. f_equal.
      rewrite <- app_nil_r at 1. f_equal.
      destruct (fst _), (m_sample_buffer s); reflexivity.
    + eexists. eexists. split; [now apply OpenDevice_rejected|].
      unfold set_error. cbn [trace].
      rewrite trace_log, !hints_given_app, Hev. now rewrite app_nil_r.
  - intros Hflag. unfold hint_sample_frames, hint_latency_ms. now rewrite Hflag.
  - intros Hflag. unfold hint_sample_frames, hint_latency_ms. now rewrite Hflag.
Qed.

Lemma C5_hint_from_one_latency_source_witness :
  (exists r w',
     OpenDevice sdl_example base_example false
       (SDLAudioStream_new base_example 48000 params_minimal) world0
     = Done r w' /\
     hints_given (trace w') = [2400]) /\
  hint_sample_frames base_example
    (SDLAudioStream_new base_example 48000 params_minimal)
  = to_u32 (RequiredFrames 48000 50).
Proof.
  destruct (C5_hint_from_one_latency_source sdl_example base_example false
              (SDLAudioStream_new base_example 48000 params_minimal) world0)
    as (Hrun & Hset & _); [reflexivity|reflexivity|].
  split; [exact Hrun|].
  apply Hset. reflexivity.
Defined.

(** C5, as stated, fails: with the flag set, 50 ms of buffer and 20 ms of
    output latency, the duration that replaces the latency target is 50 ms,
    the larger of the two, and the hint is 2400 frames, not the 960 frames
    of the latency target. *)
Lemma C5_override_is_not_the_smaller_value :
  minimal_output_latency params_minimal = true /\
  hint_latency_ms params_minimal = 50 /\
  Z.min (buffer_ms params_minimal) (output_latency_ms params_minimal) = 20 /\
  hint_sample_frames base_example
    (SDLAudioStream_new base_example 48000 params_minimal) = 2400 /\
  to_u32 (RequiredFrames 48000 (output_latency_ms params_minimal)) = 960 /\
  exists s w,
    OpenDevice sdl_example base_example false
      (SDLAudioStream_new base_example 48000 params_minimal) world0
    = Done (true, s) w /\
    hints_given (trace w) = [2400].
Proof.
  repeat (split; [reflexivity|]).
  eexists. eexists. split; [cbv; reflexivity|reflexivity].
Qed.

(** C10: when the backend opens the stream but the format query fails and
    leaves the obtained frame count at zero, [OpenDevice] still returns true
    and sets no error; the stream is open with a recorded size of zero, and
    every callback after that pulls zero frames. *)
Theorem C10_failed_format_query_opens_empty_stream (sdl : SDL)
    (base : AudioStreamBase) (stretch_enabled : bool) (s : SDLAudioStream)
    (w : World) (h : Z) :
  IsOpen s = false ->
  0 < m_output_channels s ->
  SDL_OpenAudioDeviceStream sdl (device_spec s) = Some h ->
  SDL_GetAudioDeviceFormat sdl (SDL_GetAudioStreamDevice sdl (Some h)) 0
    = (false, 0) ->
  exists s' w',
    OpenDevice sdl base stretch_enabled s w = Done (true, s') w' /\
    error w' = error w /\
    IsOpen s' = true /\
    m_sample_buffer_size s' = 0 /\
    m_sample_buffer s' = Some 0 /\
    forall additional_amount w1,
    exists w2,
      AudioCallback s' additional_amount w1 = Done tt w2 /\
      frames_pulled (trace w2) = frames_pulled (trace w1) ++ [0].
Proof.
  intros Hclosed Hc Ho Hq.
  destruct (OpenDevice_opened sdl base stretch_enabled s w h Hclosed Ho Hc)
    as (reader & _ & Hrun).
  rewrite Hq in Hrun. cbn [fst snd] in Hrun.
  assert (H0 : to_u32 0 / sizeof_SampleType / m_output_channels s = 0).
  { unfold to_u32, sizeof_SampleType. simpl. apply Z.div_0_l. lia. }
  rewrite H0 in Hrun.
  eexists. eexists. split; [exact Hrun|].
  repeat (split; [reflexivity|]).
  intros a w1.
  set (s' := mkStream _ _ _ _ _ _ _).
  assert (Hc' : 0 < m_output_channels s') by exact Hc.
  destruct (AudioCallback_pulls_min s' a w1 Hc') as (w2 & Hcb & Hpull).
  exists w2. split; [exact Hcb|].
  rewrite Hpull. f_equal. f_equal.
  pose proof (frames_requested_range s' a Hc') as Hr.
  change (m_sample_buffer_size s') with 0. lia.
Qed.

Lemma C10_failed_format_query_opens_empty_stream_witness :
  exists s' w',
    OpenDevice sdl_no_format base_example false
      (SDLAudioStream_new base_example 48000 params_example) world0
    = Done (true, s') w' /\
    error w' = error world0 /\
    IsOpen s' = true /\
    m_sample_buffer_size s' = 0 /\
    m_sample_buffer s' = Some 0 /\
    forall additional_amount w1,
    exists w2,
      AudioCallback s' additional_amount w1 = Done tt w2 /\
      frames_pulled (trace w2) = frames_pulled (trace w1) ++ [0].
Proof.
  apply (C10_failed_format_query_opens_empty_stream sdl_no_format base_example
           false (SDLAudioStream_new base_example 48000 params_example)
           world0 1); reflexivity.
Defined.

(** ** Pause, resume and close *)

(** C6: [SetPaused(b)] with [b] the recorded state calls nothing and changes
    nothing; with another [b] it looks the device up, tells the backend to
    pause or resume, and stores the flag after that.  Two calls of
    [SetPaused(true)] on an unpaused stream pause the backend once. *)
Theorem C6_SetPaused_idempotent (sdl : SDL) (s : SDLAudioStream) (w : World) :
  (forall b, b = m_paused s -> SetPaused sdl b s w = Done s w) /\
  (forall b, b <> m_paused s ->
     let device_id := SDL_GetAudioStreamDevice sdl (m_device_stream s) in
     SetPaused sdl b s w =
     Done (set_m_paused b s)
       (log [Call_SDL_GetAudioStreamDevice (m_device_stream s);
             if b then Call_SDL_PauseAudioDevice device_id
             else Call_SDL_ResumeAudioDevice device_id;
             Store_m_paused b] w)) /\
  (m_paused s = false ->
   exists s1 w1,
     SetPaused sdl true s w = Done s1 w1 /\
     SetPaused sdl true s1 w1 = Done s1 w1 /\
     m_paused s1 = true /\
     pause_calls (trace w1) = S (pause_calls (trace w))).
Proof.
  split; [|split].
  - intros b Hb. now apply SetPaused_same.
  - intros b Hb device_id. now apply SetPaused_toggle.
  - intros Hp.
    exists (set_m_paused true s). eexists.
    split; [apply SetPaused_toggle; rewrite Hp; discriminate|].
    split; [now apply SetPaused_same|].
    split; [reflexivity|].
    rewrite trace_log, pause_calls_app. cbn. lia.
Qed.

Lemma C6_SetPaused_idempotent_witness :
  exists s1 w1,
    SetPaused sdl_example true stream_example world0 = Done s1 w1 /\
    SetPaused sdl_example true s1 w1 = Done s1 w1 /\
    m_paused s1 = true /\
    pause_calls (trace w1) = S (pause_calls (trace world0)).
Proof.
  destruct (C6_SetPaused_idempotent sdl_example stream_example world0)
    as (_ & _ & Htwice).
  apply Htwice. reflexivity.
Defined.

(** C7, as the code has it: [CloseDevice] destroys the device stream, clears
    the handle and resets the recorded size, so that the stream reports
    itself closed; it frees nothing and leaves the scratch buffer to the
    object, and it is the destruction of the object, before or after a
    [CloseDevice], that frees the array, once. *)
Theorem C7_CloseDevice_releases_the_handle (s : SDLAudioStream) (w : World) :
  (exists s',
     CloseDevice s w =
       Done s' (log [Call_SDL_DestroyAudioStream (m_device_stream s)] w) /\
     m_device_stream s' = None /\
     m_sample_buffer_size s' = 0 /\
     IsOpen s' = false /\
     m_sample_buffer s' = m_sample_buffer s /\
     freed (trace (log [Call_SDL_DestroyAudioStream (m_device_stream s)] w))
       = freed (trace w)) /\
  (exists s' w',
     SDLAudioStream_delete s w = Done s' w' /\
     m_device_stream s' = None /\
     m_sample_buffer s' = None /\
     freed (trace w') =
       freed (trace w) ++
       match m_sample_buffer s with
       | Some elements => [elements]
       | None => []
       end) /\
  (exists s1 w1 s2 w2,
     CloseDevice s w = Done s1 w1 /\
     SDLAudioStream_delete s1 w1 = Done s2 w2 /\
     m_sample_buffer s2 = None /\
     freed (trace w1) = freed (trace w) /\
     freed (trace w2) =
       freed (trace w) ++
       match m_sample_buffer s with
       | Some elements => [elements]
       | None => []
       end).
Proof.
  assert (Hfreed : forall a b, freed (a ++ b) = freed a ++ freed b)
    by (intros a b; apply flat_map_app).
  assert (Hclose : freed (trace (log [Call_SDL_DestroyAudioStream
                                        (m_device_stream s)] w))
                   = freed (trace w)).
  { rewrite trace_log, Hfreed. cbn. now rewrite app_nil_r. }
  assert (Hdelete : forall s0 w0,
            exists s' w',
              SDLAudioStream_delete s0 w0 = Done s' w' /\
              m_device_stream s' = None /\
              m_sample_buffer s' = None /\
              freed (trace w') =
                freed (trace w0) ++
                match m_sample_buffer s0 with
                | Some elements => [elements]
                | None => []
                end).
  { intros s0 w0. unfold SDLAudioStream_delete, bind.
    destruct (IsOpen s0) eqn:Ho.
    - rewrite CloseDevice_run. unfold assign_m_sample_buffer, bind.
      cbn [m_sample_buffer].
      destruct (m_sample_buffer s0); eexists; eexists;
        (split; [reflexivity|]); (split; [reflexivity|]);
        (split; [reflexivity|]);
        cbn [emit ret log trace]; rewrite ?Hfreed; cbn;
        rewrite ?app_nil_r; reflexivity.
    - unfold ret, assign_m_sample_buffer, bind.
      assert (Hd : m_device_stream s0 = None).
      { unfold IsOpen in Ho. now destruct (m_device_stream s0). }
      destruct (m_sample_buffer s0); eexists; eexists;
        (split; [reflexivity|]); (split; [exact Hd|]);
        (split; [reflexivity|]);
        cbn [emit ret log trace]; rewrite ?Hfreed; cbn;
        rewrite ?app_nil_r; reflexivity. }
  split; [|split].
  - eexists. split; [apply CloseDevice_run|].
    repeat (split; [reflexivity|]). exact Hclose.
  - apply Hdelete.
  - destruct (Hdelete
                (mkStream (m_sample_rate s) (m_parameters s)
                   (m_output_channels s) (m_paused s) None
                   (m_sample_buffer s) 0)
                (log [Call_SDL_DestroyAudioStream (m_device_stream s)] w))
      as (s2 & w2 & Hrun & _ & Hnone & Hf).
    eexists. eexists. exists s2, w2.
    split; [apply CloseDevice_run|]. split; [exact Hrun|].
    split; [exact Hnone|]. split; [exact Hclose|].
    cbn [m_sample_buffer] in Hf. now rewrite Hf, Hclose.
Qed.

(** C7, as stated, fails: closing the open stream [stream_example] destroys
    the device stream and resets the size, and the array of 256 samples is
    still owned by the object when [CloseDevice] returns. *)
Lemma C7_CloseDevice_keeps_sample_buffer :
  exists s',
    CloseDevice stream_example world0 =
      Done s' (log [Call_SDL_DestroyAudioStream (Some 1)] world0) /\
    m_device_stream s' = None /\
    m_sample_buffer_size s' = 0 /\
    m_sample_buffer s' = Some 256 /\
    m_sample_buffer s' <> None.
Proof.
  eexists. split; [reflexivity|].
  repeat split; try reflexivity. discriminate.
Qed.

(** C8: the reader table has one entry per expansion mode; the ordinal of
    each of the six modes is within its bounds and selects one reader, the
    reader of that mode and of no other, so the selection in [OpenDevice]
    always yields a reader. *)
Theorem C8_sample_readers_total (m : AudioExpansionMode) :
  List.length sample_readers = AudioExpansionMode_Count /\
  (mode_ordinal m < List.length sample_readers)%nat /\
  (exists r,
     nth_error sample_readers (mode_ordinal m) = Some r /\
     reader_mode r = m /\
     (forall r', nth_error sample_readers (mode_ordinal m) = Some r' -> r' = r) /\
     (forall m', nth_error sample_readers (mode_ordinal m') = Some r -> m' = m) /\
     forall w, select_reader m w = Done r w).
Proof.
  split; [reflexivity|].
  split; [destruct m; cbn; lia|].
  destruct (select_reader_run m world0) as (r & Hnth & Hmode & _).
  exists r. split; [exact Hnth|]. split; [exact Hmode|].
  split; [|split].
  - intros r' Hr'. congruence.
  - intros m' Hm'.
    destruct (select_reader_run m' world0) as (r1 & Hnth1 & Hmode1 & _).
    congruence.
  - intros w. unfold select_reader. now rewrite Hnth.
Qed.

(** C9, as the code has it: an unopened stream reports itself closed, and a
    failed open leaves it so.  [SetPaused(b)] on it does nothing when [b] is
    the recorded state; otherwise it is not guarded by the open state: it
    hands the null handle to the backend's device lookup, pauses or resumes
    the device the backend answers with, and records [b]. *)
Theorem C9_SetPaused_on_closed_stream (sdl : SDL) (base : AudioStreamBase)
    (s : SDLAudioStream) (w : World) (b : bool) :
  IsOpen s = false ->
  m_device_stream s = None /\
  (SDL_OpenAudioDeviceStream sdl (device_spec s) = None ->
   forall stretch_enabled,
   exists w', OpenDevice sdl base stretch_enabled s w = Done (false, s) w') /\
  (b = m_paused s -> SetPaused sdl b s w = Done s w) /\
  (b <> m_paused s ->
   let device_id := SDL_GetAudioStreamDevice sdl None in
   SetPaused sdl b s w =
   Done (set_m_paused b s)
     (log [Call_SDL_GetAudioStreamDevice None;
           if b then Call_SDL_PauseAudioDevice device_id
           else Call_SDL_ResumeAudioDevice device_id;
           Store_m_paused b] w) /\
   IsOpen (set_m_paused b s) = false).
Proof.
  intros Hclosed.
  assert (Hd : m_device_stream s = None).
  { unfold IsOpen in Hclosed. now destruct (m_device_stream s). }
  split; [exact Hd|]. split; [|split].
  - intros Hrej stretch_enabled. eexists. now apply OpenDevice_rejected.
  - now apply SetPaused_same.
  - intros Hne device_id. split.
    + rewrite SetPaused_toggle by assumption. subst device_id.
      now rewrite Hd.
    + exact Hclosed.
Qed.

Lemma C9_SetPaused_on_closed_stream_witness :
  SetPaused sdl_rejecting false
    (SDLAudioStream_new base_example 48000 params_example) world0
  = Done (SDLAudioStream_new base_example 48000 params_example) world0 /\
  exists w',
    OpenDevice sdl_rejecting base_example false
      (SDLAudioStream_new base_example 48000 params_example) world0
    = Done (false, SDLAudioStream_new base_example 48000 params_example) w'.
Proof.
  destruct (C9_SetPaused_on_closed_stream sdl_rejecting base_example
              (SDLAudioStream_new base_example 48000 params_example)
              world0 false) as (_ & Hopen & Hsame & _); [reflexivity|].
  split; [apply Hsame; reflexivity|].
  apply Hopen. reflexivity.
Defined.

(** C9, as stated, fails: after a refused open the stream is closed, and
    [SetPaused(true)] on it is neither a no-op nor rejected: the backend is
    asked for the device of the null handle and told to pause device 0, and
    the stream records itself paused. *)
Lemma C9_SetPaused_reaches_backend_when_closed :
  exists w0,
    OpenDevice sdl_rejecting base_example false
      (SDLAudioStream_new base_example 48000 params_example) world0
    = Done (false, SDLAudioStream_new base_example 48000 params_example) w0 /\
    IsOpen (SDLAudioStream_new base_example 48000 params_example) = false /\
    exists s1,
      SetPaused sdl_rejecting true
        (SDLAudioStream_new base_example 48000 params_example) w0
      = Done s1
          (log [Call_SDL_GetAudioStreamDevice None;
                Call_SDL_PauseAudioDevice 0;
                Store_m_paused true] w0) /\
      m_paused s1 = true /\
      s1 <> SDLAudioStream_new base_example 48000 params_example.
Proof.
  eexists. split; [cbv; reflexivity|]. split; [reflexivity|].
  eexists. split; [cbv; reflexivity|]. split; [reflexivity|].
  discriminate.
Qed.

(** * Further properties of the code *)

Lemma count_events_app (p : Event -> bool) (a b : list Event) :
  count_events p (a ++ b) = (count_events p a + count_events p b)%nat.
Proof.
  unfold count_events. now rewrite filter_app, length_app.
Qed.

Lemma destroyed_app (a b : list Event) :
  destroyed (a ++ b) = destroyed a ++ destroyed b.
Proof. apply flat_map_app. Qed.

Lemma freed_app (a b : list Event) : freed (a ++ b) = freed a ++ freed b.
Proof. apply flat_map_app. Qed.

Lemma devices_requested_app (a b : list Event) :
  devices_requested (a ++ b) = devices_requested a ++ devices_requested b.
Proof. apply flat_map_app. Qed.

Lemma base_initializations_app (a b : list Event) :
  base_initializations (a ++ b) =
  base_initializations a ++ base_initializations b.
Proof. apply flat_map_app. Qed.

Lemma warnings_app (a b : list Event) :
  warnings (a ++ b) = warnings a ++ warnings b.
Proof. apply flat_map_app. Qed.

Lemma toggles_app (a b : list Event) :
  toggles (a ++ b) = toggles a ++ toggles b.
Proof. apply flat_map_app. Qed.

(** ** The audio subsystem *)

Lemma InitializeSDLAudio_already (sdl : SDL) (w : World) :
  initialized w = true -> InitializeSDLAudio sdl w = Done true w.
Proof.
  intros Hi. unfold InitializeSDLAudio, bind, get_initialized. now rewrite Hi.
Qed.

Lemma InitializeSDLAudio_first (sdl : SDL) (w : World) :
  initialized w = false ->
  SDL_InitSubSystem sdl = 0 ->
  InitializeSDLAudio sdl w =
  Done true
    (mkWorld true (error w)
       (trace w ++ [Call_SDL_InitSubSystem; Call_atexit_SDL_QuitSubSystem])).
Proof.
  intros Hi H0. unfold InitializeSDLAudio, bind, get_initialized.
  rewrite Hi, H0. cbn. now rewrite <- app_assoc.
Qed.

(** X1: once the audio subsystem is up, [InitializeSDLAudio] never goes back to
    SDL: the call that brings it up initialises SDL and registers the exit
    handler once each, and every later call returns true and leaves the
    process as it is, whatever the backend would answer. *)
Theorem InitializeSDLAudio_initializes_once (sdl : SDL) (w : World) :
  initialized w = true \/ SDL_InitSubSystem sdl = 0 ->
  exists w1,
    InitializeSDLAudio sdl w = Done true w1 /\
    initialized w1 = true /\
    error w1 = error w /\
    count_events is_init_call (trace w1) =
      (count_events is_init_call (trace w)
       + if initialized w then 0 else 1)%nat /\
    count_events is_atexit_call (trace w1) =
      (count_events is_atexit_call (trace w)
       + if initialized w then 0 else 1)%nat /\
    forall sdl', InitializeSDLAudio sdl' w1 = Done true w1.
Proof.
  intros H. destruct (initialized w) eqn:Hi.
  - exists w. rewrite InitializeSDLAudio_already by assumption.
    split; [reflexivity|]. split; [exact Hi|]. split; [reflexivity|].
    split; [lia|]. split; [lia|].
    intros sdl'. now apply InitializeSDLAudio_already.
  - destruct H as [H|H]; [discriminate|].
    eexists. split; [now apply InitializeSDLAudio_first|].
    cbn [initialized error trace].
    rewrite !count_events_app.
    split; [reflexivity|]. split; [reflexivity|].
    split; [reflexivity|]. split; [reflexivity|].
    intros sdl'. now apply InitializeSDLAudio_already.
Qed.

Lemma InitializeSDLAudio_initializes_once_witness :
  exists w1,
    InitializeSDLAudio sdl_example world0 = Done true w1 /\
    initialized w1 = true /\
    error w1 = error world0 /\
    count_events is_init_call (trace w1) = 1%nat /\
    count_events is_atexit_call (trace w1) = 1%nat /\
    forall sdl', InitializeSDLAudio sdl' w1 = Done true w1.
Proof.
  apply (InitializeSDLAudio_initializes_once sdl_example world0).
  right. reflexivity.
Defined.

(** X2: a failed bring-up is not remembered: the call returns false with the
    error set, registers no exit handler and leaves the flag clear, so the
    next call asks SDL again, and succeeds if SDL then does. *)
Theorem InitializeSDLAudio_failure_is_retried (sdl sdl' : SDL) (w : World) :
  initialized w = false ->
  SDL_InitSubSystem sdl <> 0 ->
  exists w1,
    InitializeSDLAudio sdl w = Done false w1 /\
    initialized w1 = false /\
    error w1 =
      Some ("SDL_InitSubSystem(SDL_INIT_AUDIO) failed: " ++ SDL_GetError sdl)%string /\
    count_events is_atexit_call (trace w1) =
      count_events is_atexit_call (trace w) /\
    (SDL_InitSubSystem sdl' = 0 ->
     exists w2,
       InitializeSDLAudio sdl' w1 = Done true w2 /\
       initialized w2 = true /\
       count_events is_init_call (trace w2) =
         (count_events is_init_call (trace w) + 2)%nat).
Proof.
  intros Hi Hne. eexists.
  split; [now apply InitializeSDLAudio_fails|].
  cbn [set_error log initialized error trace].
  split; [exact Hi|]. split; [reflexivity|].
  split.
  { rewrite count_events_app.
    change (count_events is_atexit_call [Call_SDL_InitSubSystem]) with 0%nat.
    lia. }
  intros H0. eexists.
  split; [apply InitializeSDLAudio_first; [exact Hi|exact H0]|].
  cbn [set_error log initialized trace]. split; [reflexivity|].
  rewrite !count_events_app.
  change (count_events is_init_call [Call_SDL_InitSubSystem]) with 1%nat.
  change (count_events is_init_call
            [Call_SDL_InitSubSystem; Call_atexit_SDL_QuitSubSystem])
    with 1%nat.
  lia.
Qed.

Lemma InitializeSDLAudio_failure_is_retried_witness :
  exists w1,
    InitializeSDLAudio sdl_uninitialized world0 = Done false w1 /\
    initialized w1 = false /\
    exists w2,
      InitializeSDLAudio sdl_example w1 = Done true w2 /\
      count_events is_init_call (trace w2) = 2%nat.
Proof.
  destruct (InitializeSDLAudio_failure_is_retried sdl_uninitialized
              sdl_example world0) as (w1 & Hrun & Hflag & _ & _ & Hnext);
    [reflexivity|discriminate|].
  exists w1. split; [exact Hrun|]. split; [exact Hflag|].
  destruct (Hnext eq_refl) as (w2 & Hrun2 & _ & Hcount).
  exists w2. split; [exact Hrun2|exact Hcount].
Defined.

(** ** Creating a stream *)

(** The stream [OpenDevice] leaves behind once the backend has opened [h]. *)
Lemma OpenDevice_opened_stream (sdl : SDL) (base : AudioStreamBase)
    (stretch_enabled : bool) (s : SDLAudioStream) (w : World) (h : Z) :
  IsOpen s = false ->
  SDL_OpenAudioDeviceStream sdl (device_spec s) = Some h ->
  0 < m_output_channels s ->
  exists s' w',
    OpenDevice sdl base stretch_enabled s w = Done (true, s') w' /\
    s' = mkStream (m_sample_rate s) (m_parameters s) (m_output_channels s)
           (m_paused s) (Some h) (Some (m_sample_buffer_size s'))
           (m_sample_buffer_size s') /\
    m_sample_buffer_size s' =
      frames_requested s
        (snd (SDL_GetAudioDeviceFormat sdl
                (SDL_GetAudioStreamDevice sdl (Some h)) 0)) /\
    initialized w' = initialized w /\
    error w' = error w /\
    count_events is_init_call (trace w') = count_events is_init_call (trace w) /\
    count_events is_atexit_call (trace w') =
      count_events is_atexit_call (trace w).
Proof.
  intros Hclosed Ho Hc.
  destruct (OpenDevice_opened sdl base stretch_enabled s w h Hclosed Ho Hc)
    as (reader & _ & Hrun).
  eexists. eexists. split; [exact Hrun|].
  cbn [m_sample_buffer_size log initialized error trace].
  split; [reflexivity|]. split; [reflexivity|].
  split; [reflexivity|]. split; [reflexivity|].
  rewrite !count_events_app.
  split.
  - replace (count_events is_init_call _ + _)%nat
      with (count_events is_init_call (trace w) + 0)%nat; [lia|].
    f_equal. unfold hint_events.
    destruct (SDL_SetHint sdl _), (fst _), (m_sample_buffer s); reflexivity.
  - replace (count_events is_atexit_call _ + _)%nat
      with (count_events is_atexit_call (trace w) + 0)%nat; [lia|].
    f_equal. unfold hint_events.
    destruct (SDL_SetHint sdl _), (fst _), (m_sample_buffer s); reflexivity.
Qed.

Lemma OpenDevice_rejected_world (sdl : SDL) (base : AudioStreamBase)
    (stretch_enabled : bool) (s : SDLAudioStream) (w : World) :
  IsOpen s = false ->
  SDL_OpenAudioDeviceStream sdl (device_spec s) = None ->
  exists w',
    OpenDevice sdl base stretch_enabled s w = Done (false, s) w' /\
    initialized w' = initialized w /\
    error w' =
      Some ("SDL_OpenAudioDeviceStream() failed: " ++ SDL_GetError sdl)%string /\
    count_events is_init_call (trace w') = count_events is_init_call (trace w) /\
    count_events is_atexit_call (trace w') =
      count_events is_atexit_call (trace w) /\
    destroyed (trace w') = destroyed (trace w) /\
    base_initializations (trace w') = base_initializations (trace w).
Proof.
  intros Hclosed Ho. eexists.
  split; [now apply OpenDevice_rejected|].
  cbn [set_error log initialized error trace].
  split; [reflexivity|]. split; [reflexivity|].
  rewrite !count_events_app, destroyed_app, base_initializations_app.
  unfold hint_events.
  destruct (SDL_SetHint sdl _); cbn; rewrite ?app_nil_r;
    repeat split; lia.
Qed.

Lemma InitializeSDLAudio_total (sdl : SDL) (w : World) :
  exists ok w1 es,
    InitializeSDLAudio sdl w = Done ok w1 /\
    trace w1 = trace w ++ es /\
    base_initializations es = [] /\
    (ok = true -> initialized w1 = true /\ error w1 = error w) /\
    (ok = false -> exists msg, error w1 = Some msg).
Proof.
  destruct (initialized w) eqn:Hi;
    [|destruct (Z.eq_dec (SDL_InitSubSystem sdl) 0) as [H0|Hne]].
  - exists true, w, []. rewrite InitializeSDLAudio_already by assumption.
    rewrite app_nil_r. repeat split; auto; discriminate.
  - eexists true, _, _. rewrite InitializeSDLAudio_first by assumption.
    split; [reflexivity|]. cbn [trace initialized error].
    split; [reflexivity|]. split; [reflexivity|].
    split; [auto|discriminate].
  - eexists false, _, _. rewrite InitializeSDLAudio_fails by assumption.
    split; [reflexivity|]. cbn [set_error log trace error].
    split; [reflexivity|]. split; [reflexivity|].
    split; [discriminate|]. intros _. eexists; reflexivity.
Qed.

Lemma CreateSDLAudioStream_unfold (sdl : SDL) (base : AudioStreamBase)
    (sample_rate : Z) (parameters : AudioStreamParameters)
    (stretch_enabled : bool) (w : World) :
  CreateSDLAudioStream sdl base sample_rate parameters stretch_enabled w =
  match InitializeSDLAudio sdl w with
  | Done false w1 => Done None w1
  | Done true w1 =>
    match OpenDevice sdl base stretch_enabled
            (SDLAudioStream_new base sample_rate parameters) w1 with
    | Done (true, s) w2 => Done (Some s) w2
    | Done (false, s) w2 =>
      match SDLAudioStream_delete s w2 with
      | Done _ w3 => Done None w3
      | Stuck f => Stuck f
      end
    | Stuck f => Stuck f
    end
  | Stuck f => Stuck f
  end.
Proof.
  unfold CreateSDLAudioStream, bind.
  destruct (InitializeSDLAudio sdl w) as [[|] w1|f];
    [cbn [negb]|reflexivity|reflexivity].
  destruct (OpenDevice sdl base stretch_enabled
              (SDLAudioStream_new base sample_rate parameters) w1)
    as [[[|] s] w2|f]; reflexivity.
Qed.

(** X3: [CreateSDLAudioStream] always returns: either a stream, which is then
    open, unpaused, built from the arguments and owns an array of as many
    samples as its recorded size, the error left alone; or no stream, and
    then the error is set and nothing was handed to [BaseInitialize]. *)
Theorem CreateSDLAudioStream_stream_or_error (sdl : SDL)
    (base : AudioStreamBase) (sample_rate : Z)
    (parameters : AudioStreamParameters) (stretch_enabled : bool) (w : World) :
  0 < output_channels_of base parameters ->
  exists r w',
    CreateSDLAudioStream sdl base sample_rate parameters stretch_enabled w
      = Done r w' /\
    match r with
    | Some s =>
      IsOpen s = true /\
      m_sample_rate s = sample_rate /\
      m_parameters s = parameters /\
      m_output_channels s = output_channels_of base parameters /\
      m_paused s = false /\
      m_sample_buffer s = Some (m_sample_buffer_size s) /\
      0 <= m_sample_buffer_size s /\
      initialized w' = true /\
      error w' = error w
    | None =>
      (exists msg, error w' = Some msg) /\
      base_initializations (trace w') = base_initializations (trace w)
    end.
Proof.
  intros Hc.
  set (s0 := SDLAudioStream_new base sample_rate parameters).
  assert (Hclosed : IsOpen s0 = false) by reflexivity.
  assert (Hc0 : 0 < m_output_channels s0) by exact Hc.
  rewrite CreateSDLAudioStream_unfold. fold s0.
  destruct (InitializeSDLAudio_total sdl w)
    as (ok & w1 & es & Hrun & Htr & Hbase & Hok & Hfail).
  rewrite Hrun. destruct ok.
  - destruct (Hok eq_refl) as [Hi1 He1].
    destruct (SDL_OpenAudioDeviceStream sdl (device_spec s0)) as [h|] eqn:Ho.
    + destruct (OpenDevice_opened_stream sdl base stretch_enabled s0 w1 h
                  Hclosed Ho Hc0)
        as (s' & w' & Hopen & Hs' & Hsize & Hi' & He' & _ & _).
      rewrite Hopen. exists (Some s'), w'. split; [reflexivity|].
      split; [now rewrite Hs'|]. split; [now rewrite Hs'|].
      split; [now rewrite Hs'|]. split; [now rewrite Hs'|].
      split; [now rewrite Hs'|]. split; [now rewrite Hs' at 1|].
      split; [rewrite Hsize; apply frames_requested_range; exact Hc0|].
      split; congruence.
    + destruct (OpenDevice_rejected_world sdl base stretch_enabled s0 w1
                  Hclosed Ho)
        as (w' & Hopen & _ & He' & _ & _ & _ & Hb').
      rewrite Hopen. cbn.
      eexists None, _. split; [reflexivity|]. cbn [error trace].
      split; [eexists; exact He'|].
      rewrite Hb', Htr, base_initializations_app, Hbase.
      now rewrite app_nil_r.
  - exists None, w1. split; [reflexivity|].
    split; [now apply Hfail|].
    rewrite Htr, base_initializations_app, Hbase. now rewrite app_nil_r.
Qed.

Lemma CreateSDLAudioStream_stream_or_error_witness :
  exists r w',
    CreateSDLAudioStream sdl_rejecting base_example 48000 params_surround51
      true world0 = Done r w' /\
    match r with
    | Some s =>
      IsOpen s = true /\
      m_sample_rate s = 48000 /\
      m_parameters s = params_surround51 /\
      m_output_channels s = output_channels_of base_example params_surround51 /\
      m_paused s = false /\
      m_sample_buffer s = Some (m_sample_buffer_size s) /\
      0 <= m_sample_buffer_size s /\
      initialized w' = true /\
      error w' = error world0
    | None =>
      (exists msg, error w' = Some msg) /\
      base_initializations (trace w') = base_initializations (trace world0)
    end.
Proof.
  apply (CreateSDLAudioStream_stream_or_error sdl_rejecting base_example 48000
           params_surround51 true world0).
  reflexivity.
Defined.

Lemma InitializeSDLAudio_up (sdl : SDL) (w : World) :
  initialized w = true \/ SDL_InitSubSystem sdl = 0 ->
  exists w1,
    InitializeSDLAudio sdl w = Done true w1 /\
    initialized w1 = true /\
    count_events is_init_call (trace w1) =
      (count_events is_init_call (trace w)
       + if initialized w then 0 else 1)%nat /\
    count_events is_atexit_call (trace w1) =
      (count_events is_atexit_call (trace w)
       + if initialized w then 0 else 1)%nat.
Proof.
  intros Hup. destruct (initialized w) eqn:Hi.
  - exists w. split; [now apply InitializeSDLAudio_already|].
    split; [exact Hi|]. split; lia.
  - destruct Hup as [Hup|Hup]; [discriminate|].
    eexists. split; [now apply InitializeSDLAudio_first|].
    cbn [initialized trace]. rewrite !count_events_app.
    split; [reflexivity|]. split; reflexivity.
Qed.

(** X4: creating a stream brings the audio subsystem up at most once, and keeps
    it up whether or not the device opens: SDL is initialised and the exit
    handler registered once by the first call that finds the subsystem down,
    and never by a call that finds it up. *)
Theorem CreateSDLAudioStream_initializes_once (sdl : SDL)
    (base : AudioStreamBase) (sample_rate : Z)
    (parameters : AudioStreamParameters) (stretch_enabled : bool) (w : World) :
  0 < output_channels_of base parameters ->
  initialized w = true \/ SDL_InitSubSystem sdl = 0 ->
  exists r w',
    CreateSDLAudioStream sdl base sample_rate parameters stretch_enabled w
      = Done r w' /\
    initialized w' = true /\
    count_events is_init_call (trace w') =
      (count_events is_init_call (trace w)
       + if initialized w then 0 else 1)%nat /\
    count_events is_atexit_call (trace w') =
      (count_events is_atexit_call (trace w)
       + if initialized w then 0 else 1)%nat.
Proof.
  intros Hc Hup.
  set (s0 := SDLAudioStream_new base sample_rate parameters).
  assert (Hclosed : IsOpen s0 = false) by reflexivity.
  assert (Hc0 : 0 < m_output_channels s0) by exact Hc.
  rewrite CreateSDLAudioStream_unfold. fold s0.
  destruct (InitializeSDLAudio_up sdl w Hup) as (w1 & Hrun & Hi1 & Hn1 & Ha1).
  rewrite Hrun.
  destruct (SDL_OpenAudioDeviceStream sdl (device_spec s0)) as [h|] eqn:Ho.
  - destruct (OpenDevice_opened_stream sdl base stretch_enabled s0 w1 h
                Hclosed Ho Hc0)
      as (s' & w' & Hopen & _ & _ & Hi' & _ & Hn' & Ha').
    rewrite Hopen. exists (Some s'), w'.
    split; [reflexivity|]. split; [congruence|]. split; congruence.
  - destruct (OpenDevice_rejected_world sdl base stretch_enabled s0 w1
                Hclosed Ho)
      as (w' & Hopen & Hi' & _ & Hn' & Ha' & _ & _).
    rewrite Hopen. cbn. exists None, w'.
    split; [reflexivity|]. split; [congruence|]. split; congruence.
Qed.

Lemma CreateSDLAudioStream_initializes_once_witness :
  exists r w',
    CreateSDLAudioStream sdl_rejecting base_example 48000 params_example
      false world0 = Done r w' /\
    initialized w' = true /\
    count_events is_init_call (trace w') = 1%nat /\
    count_events is_atexit_call (trace w') = 1%nat.
Proof.
  apply (CreateSDLAudioStream_initializes_once sdl_rejecting base_example
           48000 params_example false world0);
    [reflexivity|right; reflexivity].
Defined.

(** ** More on opening the device *)

Lemma to_int_small (z : Z) : - 2 ^ 31 <= z < 2 ^ 31 -> to_int z = z.
Proof.
  intros Hz. unfold to_int. rewrite Z.mod_small by lia. lia.
Qed.

(** X5: [OpenDevice] hands the hint to the backend before it asks for the device
    stream, and asks for one stream only, in signed 16-bit samples with the
    stream's channel count and sample rate as converted to the [int] fields
    of the request: the members themselves when they are below 2^31, and
    wrapped around otherwise. *)
Theorem OpenDevice_hint_precedes_open (sdl : SDL) (base : AudioStreamBase)
    (stretch_enabled : bool) (s : SDLAudioStream) (w : World) :
  IsOpen s = false ->
  0 < m_output_channels s ->
  exists r w' before after,
    OpenDevice sdl base stretch_enabled s w = Done r w' /\
    trace w' =
      trace w ++ before ++
      Call_SDL_OpenAudioDeviceStream
        (mkSpec SDL_AUDIO_S16 (to_int (m_output_channels s))
                (to_int (m_sample_rate s)))
      :: after /\
    hints_given before = [hint_sample_frames base s] /\
    devices_requested before = [] /\
    hints_given after = [] /\
    devices_requested after = [] /\
    (m_output_channels s < 2 ^ 31 ->
     to_int (m_output_channels s) = m_output_channels s) /\
    (0 <= m_sample_rate s < 2 ^ 31 ->
     to_int (m_sample_rate s) = m_sample_rate s) /\
    (2 ^ 31 <= m_sample_rate s < 2 ^ 32 ->
     to_int (m_sample_rate s) = m_sample_rate s - 2 ^ 32).
Proof.
  intros Hclosed Hc.
  assert (Hconv : (m_output_channels s < 2 ^ 31 ->
                   to_int (m_output_channels s) = m_output_channels s) /\
                  (0 <= m_sample_rate s < 2 ^ 31 ->
                   to_int (m_sample_rate s) = m_sample_rate s) /\
                  (2 ^ 31 <= m_sample_rate s < 2 ^ 32 ->
                   to_int (m_sample_rate s) = m_sample_rate s - 2 ^ 32)).
  { split; [|split].
    - intros H. apply to_int_small. lia.
    - intros H. apply to_int_small. lia.
    - intros H. unfold to_int.
      replace (m_sample_rate s + 2 ^ 31)
        with (m_sample_rate s - 2 ^ 31 + 1 * 2 ^ 32) by lia.
      rewrite Z.mod_add by lia. rewrite Z.mod_small by lia. lia. }
  destruct (SDL_OpenAudioDeviceStream sdl (device_spec s)) as [h|] eqn:Ho.
  - destruct (OpenDevice_opened sdl base stretch_enabled s w h Hclosed Ho Hc)
      as (reader & _ & Hrun).
    eexists. eexists. exists (hint_events sdl (hint_sample_frames base s)).
    eexists. split; [exact Hrun|].
    split; [reflexivity|].
    unfold hint_events.
    destruct (SDL_SetHint sdl _), (fst _), (m_sample_buffer s);
      (repeat (split; [reflexivity|])); exact Hconv.
  - eexists. eexists. exists (hint_events sdl (hint_sample_frames base s)).
    exists []. split; [now apply OpenDevice_rejected|].
    split; [reflexivity|].
    unfold hint_events.
    destruct (SDL_SetHint sdl _);
      (repeat (split; [reflexivity|])); exact Hconv.
Qed.

Lemma OpenDevice_hint_precedes_open_witness :
  exists r w' before after,
    OpenDevice sdl_example base_example false
      (SDLAudioStream_new base_example 48000 params_example) world0
    = Done r w' /\
    trace w' =
      trace world0 ++ before ++
      Call_SDL_OpenAudioDeviceStream (mkSpec SDL_AUDIO_S16 2 48000) :: after /\
    hints_given before = [960] /\
    devices_requested before = [] /\
    hints_given after = [] /\
    devices_requested after = [].
Proof.
  destruct (OpenDevice_hint_precedes_open sdl_example base_example false
              (SDLAudioStream_new base_example 48000 params_example) world0)
    as (r & w' & before & after & Hrun & Htr & H1 & H2 & H3 & H4 & _);
    [reflexivity|reflexivity|].
  exists r, w', before, after.
  repeat (split; [assumption|]). assumption.
Defined.

(** X6: [OpenDevice] initialises the base class exactly when the device opens,
    once, with the stretch flag it was given and the reader that the table
    holds for the configured expansion mode. *)
Theorem OpenDevice_initializes_base_with_mode_reader (sdl : SDL)
    (base : AudioStreamBase) (stretch_enabled : bool) (s : SDLAudioStream)
    (w : World) :
  IsOpen s = false ->
  0 < m_output_channels s ->
  exists opened s' w' reader,
    OpenDevice sdl base stretch_enabled s w = Done (opened, s') w' /\
    nth_error sample_readers (mode_ordinal (expansion_mode (m_parameters s)))
      = Some reader /\
    reader_mode reader = expansion_mode (m_parameters s) /\
    base_initializations (trace w') =
      base_initializations (trace w) ++
      (if opened then [(reader, stretch_enabled)] else []) /\
    (opened = true <->
     SDL_OpenAudioDeviceStream sdl (device_spec s) <> None).
Proof.
  intros Hclosed Hc.
  destruct (select_reader_run (expansion_mode (m_parameters s)) w)
    as (r0 & Hnth0 & Hmode0 & _).
  destruct (SDL_OpenAudioDeviceStream sdl (device_spec s)) as [h|] eqn:Ho.
  - destruct (OpenDevice_opened sdl base stretch_enabled s w h Hclosed Ho Hc)
      as (reader & Hnth & Hrun).
    assert (reader = r0) by congruence. subst reader.
    exists true. eexists. eexists. exists r0.
    split; [exact Hrun|]. split; [exact Hnth|]. split; [exact Hmode0|].
    split.
    + rewrite trace_log, !base_initializations_app. f_equal.
      unfold hint_events.
      destruct (SDL_SetHint sdl _), (fst _), (m_sample_buffer s); reflexivity.
    + split; [discriminate|reflexivity].
  - destruct (OpenDevice_rejected_world sdl base stretch_enabled s w
                Hclosed Ho)
      as (w' & Hopen & _ & _ & _ & _ & _ & Hb').
    exists false, s, w', r0.
    split; [exact Hopen|]. split; [exact Hnth0|]. split; [exact Hmode0|].
    split; [now rewrite Hb', app_nil_r|].
    split; [discriminate|]. intros H. now contradiction H.
Qed.

Lemma OpenDevice_initializes_base_with_mode_reader_witness :
  exists opened s' w' reader,
    OpenDevice sdl_example base_example true
      (SDLAudioStream_new base_example 48000 params_surround51) world0
    = Done (opened, s') w' /\
    nth_error sample_readers (mode_ordinal Surround51) = Some reader /\
    reader_mode reader = Surround51 /\
    base_initializations (trace w') =
      base_initializations (trace world0) ++
      (if opened then [(reader, true)] else []) /\
    (opened = true <->
     SDL_OpenAudioDeviceStream sdl_example
       (device_spec (SDLAudioStream_new base_example 48000 params_surround51))
     <> None).
Proof.
  apply (OpenDevice_initializes_base_with_mode_reader sdl_example base_example
           true (SDLAudioStream_new base_example 48000 params_surround51)
           world0); reflexivity.
Defined.

(** X7: the stream [OpenDevice] produces does not depend on the hint: two
    backends that answer alike when the stream is opened and its format
    queried, and any two sizing policies, give the same result and the same
    stream, even if one backend refuses the hint. *)
Theorem OpenDevice_result_independent_of_hint (sdl1 sdl2 : SDL)
    (base1 base2 : AudioStreamBase) (stretch_enabled : bool)
    (s : SDLAudioStream) (w : World) :
  IsOpen s = false ->
  0 < m_output_channels s ->
  SDL_OpenAudioDeviceStream sdl1 (device_spec s) =
    SDL_OpenAudioDeviceStream sdl2 (device_spec s) ->
  (forall p, SDL_GetAudioStreamDevice sdl1 p = SDL_GetAudioStreamDevice sdl2 p) ->
  (forall d n, SDL_GetAudioDeviceFormat sdl1 d n =
               SDL_GetAudioDeviceFormat sdl2 d n) ->
  exists r w1 w2,
    OpenDevice sdl1 base1 stretch_enabled s w = Done r w1 /\
    OpenDevice sdl2 base2 stretch_enabled s w = Done r w2.
Proof.
  intros Hclosed Hc Ho Hd Hf.
  destruct (SDL_OpenAudioDeviceStream sdl2 (device_spec s)) as [h|] eqn:Ho2.
  - destruct (OpenDevice_opened sdl1 base1 stretch_enabled s w h Hclosed Ho Hc)
      as (r1 & _ & Hrun1).
    destruct (OpenDevice_opened sdl2 base2 stretch_enabled s w h Hclosed Ho2 Hc)
      as (r2 & _ & Hrun2).
    rewrite Hd, Hf in Hrun1.
    eexists. eexists. eexists. split; [exact Hrun1|exact Hrun2].
  - eexists. eexists. eexists.
    split; now apply OpenDevice_rejected.
Qed.

Lemma OpenDevice_result_independent_of_hint_witness :
  exists r w1 w2,
    OpenDevice sdl_example base_example false
      (SDLAudioStream_new base_example 48000 params_example) world0
    = Done r w1 /\
    OpenDevice sdl_example (mkBase (fun _ _ => 0) mode_channels) false
      (SDLAudioStream_new base_example 48000 params_example) world0
    = Done r w2.
Proof.
  apply (OpenDevice_result_independent_of_hint sdl_example sdl_example
           base_example (mkBase (fun _ _ => 0) mode_channels) false
           (SDLAudioStream_new base_example 48000 params_example) world0);
    reflexivity.
Defined.

(** ** More on pausing *)

Lemma set_m_paused_same (s : SDLAudioStream) : set_m_paused (m_paused s) s = s.
Proof. now destruct s. Qed.

Lemma set_m_paused_twice (a b : bool) (s : SDLAudioStream) :
  set_m_paused b (set_m_paused a s) = set_m_paused b s.
Proof. reflexivity. Qed.

Lemma last_cons_default {A : Type} (l : list A) (a d : A) :
  last (a :: l) d = last l a.
Proof.
  revert a d. induction l as [|b l IH]; intros a d; [reflexivity|].
  change (last (a :: b :: l) d) with (last (b :: l) d).
  now rewrite !IH.
Qed.

(** X8: however the control context calls [SetPaused], the backend is told to
    pause or resume once per change of state and never otherwise, always
    for the device of the stream's handle; the recorded flag ends up as the
    last state asked for, which is the last instruction the backend got, and
    no other member changes. *)
Theorem SetPaused_each_calls_backend_per_transition (sdl : SDL)
    (requests : list bool) (s : SDLAudioStream) (w : World) :
  exists es,
    SetPaused_each sdl requests s w =
      Done (set_m_paused (last requests (m_paused s)) s) (log es w) /\
    List.length (toggles es) = transitions (m_paused s) requests /\
    last (map fst (toggles es)) (m_paused s) = last requests (m_paused s) /\
    Forall (fun t => snd t = SDL_GetAudioStreamDevice sdl (m_device_stream s))
           (toggles es).
Proof.
  revert s w. induction requests as [|p rest IH]; intros s w.
  - exists []. cbn. rewrite set_m_paused_same.
    unfold ret, log. rewrite app_nil_r. destruct w.
    repeat split; constructor.
  - cbn [SetPaused_each transitions]. unfold bind.
    rewrite last_cons_default.
    destruct (Bool.eqb (m_paused s) p) eqn:E.
    + apply Bool.eqb_prop in E. subst p.
      rewrite SetPaused_same by reflexivity.
      destruct (IH s w) as (es & Hrun & Hlen & Hlast & Hdev).
      exists es. repeat split; assumption.
    + assert (Hne : p <> m_paused s).
      { intros ->. now rewrite Bool.eqb_reflx in E. }
      rewrite SetPaused_toggle by assumption.
      destruct (IH (set_m_paused p s)
                   (log [Call_SDL_GetAudioStreamDevice (m_device_stream s);
                         if p
                         then Call_SDL_PauseAudioDevice
                                (SDL_GetAudioStreamDevice sdl (m_device_stream s))
                         else Call_SDL_ResumeAudioDevice
                                (SDL_GetAudioStreamDevice sdl (m_device_stream s));
                         Store_m_paused p] w))
        as (es & Hrun & Hlen & Hlast & Hdev).
      cbn [m_paused m_device_stream set_m_paused] in Hrun, Hlen, Hlast, Hdev.
      eexists. split; [rewrite Hrun, log_log; reflexivity|].
      rewrite toggles_app.
      assert (Ht : toggles
                     [Call_SDL_GetAudioStreamDevice (m_device_stream s);
                      if p
                      then Call_SDL_PauseAudioDevice
                             (SDL_GetAudioStreamDevice sdl (m_device_stream s))
                      else Call_SDL_ResumeAudioDevice
                             (SDL_GetAudioStreamDevice sdl (m_device_stream s));
                      Store_m_paused p]
                   = [(p, SDL_GetAudioStreamDevice sdl (m_device_stream s))])
        by (destruct p; reflexivity).
      rewrite Ht. cbn [app List.length map fst].
      split; [now rewrite Hlen|].
      split; [now rewrite last_cons_default|].
      constructor; [reflexivity|exact Hdev].
Qed.

(** X9: pausing and resuming, or resuming and pausing, brings the stream back to
    the object it was: the backend gets the two instructions, in that order,
    for one and the same device. *)
Theorem SetPaused_round_trip (sdl : SDL) (s : SDLAudioStream) (w : World) :
  exists s1 w1 w2,
    SetPaused sdl (negb (m_paused s)) s w = Done s1 w1 /\
    m_paused s1 = negb (m_paused s) /\
    SetPaused sdl (m_paused s) s1 w1 = Done s w2 /\
    toggles (trace w2) =
      toggles (trace w) ++
      [(negb (m_paused s), SDL_GetAudioStreamDevice sdl (m_device_stream s));
       (m_paused s, SDL_GetAudioStreamDevice sdl (m_device_stream s))] /\
    error w2 = error w.
Proof.
  eexists. eexists. eexists.
  split; [apply SetPaused_toggle; now destruct (m_paused s)|].
  split; [reflexivity|].
  split.
  { rewrite SetPaused_toggle
      by (cbn [m_paused set_m_paused]; now destruct (m_paused s)).
    cbn [set_m_paused m_sample_rate m_parameters m_output_channels m_paused
         m_device_stream m_sample_buffer m_sample_buffer_size].
    rewrite log_log. f_equal. now destruct s. }
  split; [|reflexivity].
  rewrite trace_log, toggles_app. f_equal.
  now destruct (m_paused s).
Qed.

(** ** Destruction and reopening *)

(** X10: destroying the object destroys the device stream once if the stream is
    open and leaves SDL alone if it is closed, frees the sample array if
    there is one, and leaves neither handle nor array; [CloseDevice] called
    on a closed stream would hand SDL the null handle instead. *)
Theorem SDLAudioStream_delete_destroys_open_stream_once (s : SDLAudioStream)
    (w : World) :
  (exists s' w',
     SDLAudioStream_delete s w = Done s' w' /\
     destroyed (trace w') =
       destroyed (trace w) ++
       match m_device_stream s with
       | Some h => [Some h]
       | None => []
       end /\
     freed (trace w') =
       freed (trace w) ++
       match m_sample_buffer s with
       | Some n => [n]
       | None => []
       end /\
     m_device_stream s' = None /\
     m_sample_buffer s' = None /\
     error w' = error w) /\
  (IsOpen s = false ->
   exists s' w',
     CloseDevice s w = Done s' w' /\
     destroyed (trace w') = destroyed (trace w) ++ [None]).
Proof.
  split.
  - unfold SDLAudioStream_delete, bind, IsOpen.
    destruct (m_device_stream s) as [h|] eqn:Hd.
    + rewrite CloseDevice_run, Hd.
      unfold assign_m_sample_buffer, bind. cbn [m_sample_buffer].
      destruct (m_sample_buffer s) as [n|]; eexists; eexists;
        (split; [reflexivity|]);
        cbn [trace log emit ret set_m_sample_buffer m_device_stream
             m_sample_buffer error];
        rewrite ?destroyed_app, ?freed_app; cbn; rewrite ?app_nil_r;
        repeat split; reflexivity.
    + unfold ret, assign_m_sample_buffer, bind.
      destruct (m_sample_buffer s) as [n|]; eexists; eexists;
        (split; [reflexivity|]);
        cbn [trace log emit ret set_m_sample_buffer m_device_stream
             m_sample_buffer error];
        rewrite ?destroyed_app, ?freed_app; cbn; rewrite ?app_nil_r;
        repeat split; try reflexivity; exact Hd.
  - intros Hclosed. eexists. eexists. split; [apply CloseDevice_run|].
    rewrite trace_log, destroyed_app.
    unfold IsOpen in Hclosed.
    destruct (m_device_stream s); [discriminate|reflexivity].
Qed.

Lemma SDLAudioStream_delete_destroys_open_stream_once_witness :
  exists s' w',
    CloseDevice (SDLAudioStream_new base_example 48000 params_example) world0
      = Done s' w' /\
    destroyed (trace w') = destroyed (trace world0) ++ [None].
Proof.
  destruct (SDLAudioStream_delete_destroys_open_stream_once
              (SDLAudioStream_new base_example 48000 params_example) world0)
    as [_ Hclose].
  apply Hclose. reflexivity.
Defined.

Lemma SDLAudioStream_delete_open (s : SDLAudioStream) (w : World) (h n : Z) :
  m_device_stream s = Some h ->
  m_sample_buffer s = Some n ->
  exists s',
    SDLAudioStream_delete s w =
    Done s' (log [Call_SDL_DestroyAudioStream (Some h); Free_sample_buffer n] w).
Proof.
  intros Hd Hb. unfold SDLAudioStream_delete, bind, IsOpen.
  rewrite Hd, CloseDevice_run, Hd.
  unfold assign_m_sample_buffer, bind. cbn [m_sample_buffer].
  rewrite Hb. unfold emit, ret. rewrite log_log.
  eexists. reflexivity.
Qed.

(** What a successful [OpenDevice] acquires and releases. *)
Lemma OpenDevice_opened_resources (sdl : SDL) (base : AudioStreamBase)
    (stretch_enabled : bool) (s : SDLAudioStream) (w : World) (h : Z) :
  IsOpen s = false ->
  SDL_OpenAudioDeviceStream sdl (device_spec s) = Some h ->
  0 < m_output_channels s ->
  exists s' w',
    OpenDevice sdl base stretch_enabled s w = Done (true, s') w' /\
    s' = mkStream (m_sample_rate s) (m_parameters s) (m_output_channels s)
           (m_paused s) (Some h) (Some (m_sample_buffer_size s'))
           (m_sample_buffer_size s') /\
    m_sample_buffer_size s' =
      frames_requested s
        (snd (SDL_GetAudioDeviceFormat sdl
                (SDL_GetAudioStreamDevice sdl (Some h)) 0)) /\
    destroyed (trace w') = destroyed (trace w) /\
    freed (trace w') =
      freed (trace w) ++
      match m_sample_buffer s with
      | Some k => [k]
      | None => []
      end.
Proof.
  intros Hclosed Ho Hc.
  destruct (OpenDevice_opened sdl base stretch_enabled s w h Hclosed Ho Hc)
    as (reader & _ & Hrun).
  eexists. eexists. split; [exact Hrun|].
  cbn [m_sample_buffer_size].
  split; [reflexivity|]. split; [reflexivity|].
  rewrite trace_log, !destroyed_app, !freed_app. unfold hint_events.
  destruct (SDL_SetHint sdl _), (fst _), (m_sample_buffer s);
    cbn; rewrite ?app_nil_r; split; reflexivity.
Qed.

(** X11: over the life of a stream that opened, what is released is what was
    acquired: destroying the object that [CreateSDLAudioStream] returned
    destroys the very stream the backend opened, once, and frees one array,
    of the size the stream recorded. *)
Theorem stream_lifetime_releases_what_it_acquired (sdl : SDL)
    (base : AudioStreamBase) (sample_rate : Z)
    (parameters : AudioStreamParameters) (stretch_enabled : bool) (w : World)
    (h : Z) :
  0 < output_channels_of base parameters ->
  initialized w = true \/ SDL_InitSubSystem sdl = 0 ->
  SDL_OpenAudioDeviceStream sdl
    (device_spec (SDLAudioStream_new base sample_rate parameters)) = Some h ->
  exists s w1 s' w2,
    CreateSDLAudioStream sdl base sample_rate parameters stretch_enabled w
      = Done (Some s) w1 /\
    m_device_stream s = Some h /\
    destroyed (trace w1) = destroyed (trace w) /\
    freed (trace w1) = freed (trace w) /\
    SDLAudioStream_delete s w1 = Done s' w2 /\
    destroyed (trace w2) = destroyed (trace w) ++ [Some h] /\
    freed (trace w2) = freed (trace w) ++ [m_sample_buffer_size s].
Proof.
  intros Hc Hup Ho.
  set (s0 := SDLAudioStream_new base sample_rate parameters) in *.
  assert (Hclosed : IsOpen s0 = false) by reflexivity.
  assert (Hc0 : 0 < m_output_channels s0) by exact Hc.
  assert (Hinit : exists w0,
            InitializeSDLAudio sdl w = Done true w0 /\
            destroyed (trace w0) = destroyed (trace w) /\
            freed (trace w0) = freed (trace w)).
  { destruct (initialized w) eqn:Hi.
    - exists w. now rewrite InitializeSDLAudio_already.
    - destruct Hup as [Hup|Hup]; [discriminate|].
      eexists. split; [now apply InitializeSDLAudio_first|].
      cbn [trace]. rewrite destroyed_app, freed_app. cbn.
      now rewrite !app_nil_r. }
  destruct Hinit as (w0 & Hrun0 & Hd0 & Hf0).
  destruct (OpenDevice_opened_resources sdl base stretch_enabled s0 w0 h
              Hclosed Ho Hc0)
    as (s1 & w1 & Hopen & Hs1 & _ & Hd1 & Hf1).
  cbn [m_sample_buffer s0 SDLAudioStream_new] in Hf1.
  rewrite app_nil_r in Hf1.
  assert (Hdev : m_device_stream s1 = Some h) by (now rewrite Hs1).
  assert (Hbuf : m_sample_buffer s1 = Some (m_sample_buffer_size s1))
    by (now rewrite Hs1).
  destruct (SDLAudioStream_delete_open s1 w1 h (m_sample_buffer_size s1)
              Hdev Hbuf) as (s' & Hdel).
  exists s1, w1, s'. eexists.
  rewrite CreateSDLAudioStream_unfold. fold s0. rewrite Hrun0, Hopen.
  split; [reflexivity|]. split; [exact Hdev|].
  split; [congruence|]. split; [congruence|].
  split; [exact Hdel|].
  rewrite trace_log, destroyed_app, freed_app, Hd1, Hd0, Hf1, Hf0.
  split; reflexivity.
Qed.

Lemma stream_lifetime_releases_what_it_acquired_witness :
  exists s w1 s' w2,
    CreateSDLAudioStream sdl_example base_example 48000 params_example false
      world0 = Done (Some s) w1 /\
    m_device_stream s = Some 1 /\
    destroyed (trace w1) = destroyed (trace world0) /\
    freed (trace w1) = freed (trace world0) /\
    SDLAudioStream_delete s w1 = Done s' w2 /\
    destroyed (trace w2) = destroyed (trace world0) ++ [Some 1] /\
    freed (trace w2) = freed (trace world0) ++ [m_sample_buffer_size s].
Proof.
  apply (stream_lifetime_releases_what_it_acquired sdl_example base_example
           48000 params_example false world0 1);
    [reflexivity|right; reflexivity|reflexivity].
Defined.

(** X12: a stream that was closed can be opened again: after [CloseDevice],
    [OpenDevice] yields the same open stream as the first time, and frees
    the array that [CloseDevice] had left to the object, so that the stream
    never owns two. *)
Theorem OpenDevice_after_CloseDevice_reopens (sdl : SDL)
    (base : AudioStreamBase) (stretch_enabled : bool) (s : SDLAudioStream)
    (w : World) (h : Z) :
  IsOpen s = false ->
  0 < m_output_channels s ->
  SDL_OpenAudioDeviceStream sdl (device_spec s) = Some h ->
  exists s1 w1 s2 w2 w3,
    OpenDevice sdl base stretch_enabled s w = Done (true, s1) w1 /\
    CloseDevice s1 w1 = Done s2 w2 /\
    IsOpen s2 = false /\
    OpenDevice sdl base stretch_enabled s2 w2 = Done (true, s1) w3 /\
    destroyed (trace w3) = destroyed (trace w1) ++ [Some h] /\
    freed (trace w3) = freed (trace w1) ++ [m_sample_buffer_size s1].
Proof.
  intros Hclosed Hc Ho.
  destruct (OpenDevice_opened_resources sdl base stretch_enabled s w h
              Hclosed Ho Hc)
    as (s1 & w1 & Hopen & Hs1 & Hsize & _ & _).
  assert (Hdev : m_device_stream s1 = Some h) by (now rewrite Hs1).
  assert (Hbuf : m_sample_buffer s1 = Some (m_sample_buffer_size s1))
    by (now rewrite Hs1).
  assert (Hrate : m_sample_rate s1 = m_sample_rate s) by (now rewrite Hs1).
  assert (Hch : m_output_channels s1 = m_output_channels s)
    by (now rewrite Hs1).
  set (s2 := mkStream (m_sample_rate s1) (m_parameters s1)
               (m_output_channels s1) (m_paused s1) None
               (m_sample_buffer s1) 0).
  assert (Hspec : device_spec s2 = device_spec s).
  { unfold device_spec. cbn [s2 m_output_channels m_sample_rate].
    now rewrite Hrate, Hch. }
  assert (Hclosed2 : IsOpen s2 = false) by reflexivity.
  assert (Hc2 : 0 < m_output_channels s2) by (cbn; now rewrite Hch).
  assert (Ho2 : SDL_OpenAudioDeviceStream sdl (device_spec s2) = Some h)
    by (now rewrite Hspec).
  destruct (OpenDevice_opened_resources sdl base stretch_enabled s2
              (log [Call_SDL_DestroyAudioStream (m_device_stream s1)] w1) h
              Hclosed2 Ho2 Hc2)
    as (s3 & w3 & Hopen3 & Hs3 & Hsize3 & Hd3 & Hf3).
  assert (Heq : s3 = s1).
  { assert (Hn : m_sample_buffer_size s3 = m_sample_buffer_size s1).
    { rewrite Hsize3, Hsize. unfold frames_requested.
      cbn [m_output_channels s2]. now rewrite Hch. }
    rewrite Hs3, Hn.
    cbn [m_sample_rate m_parameters m_output_channels m_paused s2].
    clear - Hdev Hbuf.
    destruct s1 as [r p c pa d b n]. cbn in *. now subst. }
  exists s1, w1, s2. eexists. exists w3.
  split; [exact Hopen|].
  split; [apply CloseDevice_run|].
  split; [reflexivity|].
  split; [rewrite Hopen3; now rewrite Heq|].
  rewrite Hd3, Hf3, !trace_log, destroyed_app, freed_app.
  cbn [s2 m_sample_buffer]. rewrite Hdev, Hbuf. cbn.
  rewrite ?app_nil_r. split; reflexivity.
Qed.

Lemma OpenDevice_after_CloseDevice_reopens_witness :
  exists s1 w1 s2 w2 w3,
    OpenDevice sdl_example base_example false
      (SDLAudioStream_new base_example 48000 params_example) world0
    = Done (true, s1) w1 /\
    CloseDevice s1 w1 = Done s2 w2 /\
    IsOpen s2 = false /\
    OpenDevice sdl_example base_example false s2 w2 = Done (true, s1) w3 /\
    destroyed (trace w3) = destroyed (trace w1) ++ [Some 1] /\
    freed (trace w3) = freed (trace w1) ++ [m_sample_buffer_size s1].
Proof.
  apply (OpenDevice_after_CloseDevice_reopens sdl_example base_example false
           (SDLAudioStream_new base_example 48000 params_example) world0 1);
    reflexivity.
Defined.

(** ** More on the callback *)

(** X13: every callback calls [ReadFrames] once, with the smaller of the frame
    count it derives and the recorded size, a count between zero and that
    size; it warns exactly when it had to clamp, and it neither sets the
    error nor touches the subsystem flag. *)
Theorem AudioCallback_clamps_and_warns (s : SDLAudioStream)
    (additional_amount : Z) (w : World) :
  0 < m_output_channels s ->
  exists w',
    AudioCallback s additional_amount w = Done tt w' /\
    frames_pulled (trace w') =
      frames_pulled (trace w) ++
      [Z.min (frames_requested s additional_amount) (m_sample_buffer_size s)] /\
    warnings (trace w') =
      warnings (trace w) ++
      (if frames_requested s additional_amount >? m_sample_buffer_size s
       then [Warn_request_greater_than_buffer
               (frames_requested s additional_amount)
               (m_sample_buffer_size s)]
       else []) /\
    (0 <= m_sample_buffer_size s ->
     0 <= Z.min (frames_requested s additional_amount) (m_sample_buffer_size s)
       <= m_sample_buffer_size s) /\
    error w' = error w /\
    initialized w' = initialized w.
Proof.
  intros Hc. eexists. split; [now apply AudioCallback_run|].
  rewrite trace_log, !frames_pulled_app, !warnings_app.
  split; [now destruct (_ >? _)|].
  split; [destruct (_ >? _); cbn; now rewrite ?app_nil_r|].
  split; [|split; reflexivity].
  intros Hn. pose proof (frames_requested_range s additional_amount Hc). lia.
Qed.

Lemma AudioCallback_clamps_and_warns_witness :
  exists w',
    AudioCallback stream_example 4096 world0 = Done tt w' /\
    frames_pulled (trace w') = [256] /\
    warnings (trace w') = [Warn_request_greater_than_buffer 1024 256].
Proof.
  destruct (AudioCallback_clamps_and_warns stream_example 4096 world0)
    as (w' & Hrun & Hpull & Hwarn & _); [reflexivity|].
  exists w'. split; [exact Hrun|]. split; [exact Hpull|exact Hwarn].
Defined.

(** X14: the callback never pulls more data than it was asked for: the frames it
    pulls fit in the requested bytes, and unless it had to clamp they fall
    short of the request by less than one frame, so a request below one
    frame pulls nothing. *)
Theorem AudioCallback_pulls_whole_frames_of_request (s : SDLAudioStream)
    (additional_amount : Z) (w : World) :
  0 < m_output_channels s ->
  0 <= m_sample_buffer_size s ->
  0 <= additional_amount <= INT_MAX ->
  let frame_bytes := sizeof_SampleType * m_output_channels s in
  exists n w',
    AudioCallback s additional_amount w = Done tt w' /\
    frames_pulled (trace w') = frames_pulled (trace w) ++ [n] /\
    0 <= n * frame_bytes <= additional_amount /\
    (frames_requested s additional_amount <= m_sample_buffer_size s ->
     additional_amount - n * frame_bytes < frame_bytes) /\
    (additional_amount < frame_bytes -> n = 0).
Proof.
  intros Hc Hn Ha frame_bytes.
  destruct (AudioCallback_pulls_min s additional_amount w Hc)
    as (w' & Hrun & Hpull).
  exists (Z.min (frames_requested s additional_amount) (m_sample_buffer_size s)),
         w'.
  split; [exact Hrun|]. split; [exact Hpull|].
  assert (Hq : frames_requested s additional_amount
               = additional_amount / frame_bytes).
  { unfold frames_requested, frame_bytes, sizeof_SampleType.
    rewrite to_u32_int by assumption.
    apply Z.div_div; lia. }
  assert (Hfb : 0 < frame_bytes)
    by (unfold frame_bytes, sizeof_SampleType; lia).
  pose proof (Z.mul_div_le additional_amount frame_bytes Hfb) as Hle.
  pose proof (Z.mod_pos_bound additional_amount frame_bytes Hfb) as Hmod.
  pose proof (Z.div_mod additional_amount frame_bytes) as Hdm.
  assert (Hq0 : 0 <= additional_amount / frame_bytes)
    by (apply Z.div_pos; lia).
  rewrite Hq.
  split; [|split].
  - split; [nia|].
    apply Z.le_trans with (additional_amount / frame_bytes * frame_bytes);
      [|lia].
    apply Z.mul_le_mono_nonneg_r; lia.
  - intros Hfit. rewrite Z.min_l by lia. lia.
  - intros Hsmall. rewrite Z.div_small by lia. lia.
Qed.

Lemma AudioCallback_pulls_whole_frames_of_request_witness :
  exists n w',
    AudioCallback stream_surround51 2048 world0 = Done tt w' /\
    frames_pulled (trace w') = frames_pulled (trace world0) ++ [n] /\
    0 <= n * (sizeof_SampleType * 6) <= 2048 /\
    (frames_requested stream_surround51 2048 <= 1024 ->
     2048 - n * (sizeof_SampleType * 6) < sizeof_SampleType * 6) /\
    (2048 < sizeof_SampleType * 6 -> n = 0).
Proof.
  apply (AudioCallback_pulls_whole_frames_of_request stream_surround51 2048
           world0); [reflexivity|cbn; lia|unfold INT_MAX; lia].
Defined.

(** X15: a negative byte count is not refused: converted to [u32] it is a request
    of more than 2^31 bytes, and on any stream whose recorded size is
    below 2^30 samples the callback warns and pulls the whole recorded
    size. *)
Theorem AudioCallback_negative_request_wraps (s : SDLAudioStream)
    (additional_amount : Z) (w : World) :
  0 < m_output_channels s ->
  0 <= m_sample_buffer_size s ->
  (m_sample_buffer_size s + 1) * m_output_channels s <= 2 ^ 30 ->
  - 2 ^ 31 <= additional_amount < 0 ->
  frames_requested s additional_amount =
    (2 ^ 32 + additional_amount) / sizeof_SampleType / m_output_channels s /\
  exists w',
    AudioCallback s additional_amount w = Done tt w' /\
    frames_pulled (trace w') =
      frames_pulled (trace w) ++ [m_sample_buffer_size s] /\
    warnings (trace w') =
      warnings (trace w) ++
      [Warn_request_greater_than_buffer
         (frames_requested s additional_amount) (m_sample_buffer_size s)].
Proof.
  intros Hc Hn Hroom Ha.
  assert (Hu : to_u32 additional_amount = 2 ^ 32 + additional_amount).
  { unfold to_u32. symmetry.
    apply Z.mod_unique with (q := -1); lia. }
  assert (Hf : frames_requested s additional_amount =
               (2 ^ 32 + additional_amount) / sizeof_SampleType
               / m_output_channels s).
  { unfold frames_requested. now rewrite Hu. }
  split; [exact Hf|].
  assert (Hbig : m_sample_buffer_size s < frames_requested s additional_amount).
  { rewrite Hf. unfold sizeof_SampleType.
    assert (H2 : 2 ^ 30 <= (2 ^ 32 + additional_amount) / 2)
      by (apply Z.div_le_lower_bound; lia).
    apply Z.lt_le_trans with (m_sample_buffer_size s + 1); [lia|].
    apply Z.div_le_lower_bound; [lia|]. nia. }
  eexists. split; [now apply AudioCallback_run|].
  rewrite trace_log, !frames_pulled_app, !warnings_app.
  destruct (Z.gtb_spec (frames_requested s additional_amount)
                       (m_sample_buffer_size s)) as [_|Hle]; [|lia].
  rewrite Z.min_r by lia. split; reflexivity.
Qed.

Lemma AudioCallback_negative_request_wraps_witness :
  frames_requested stream_example (-1) = 1073741823 /\
  exists w',
    AudioCallback stream_example (-1) world0 = Done tt w' /\
    frames_pulled (trace w') = frames_pulled (trace world0) ++ [256] /\
    warnings (trace w') =
      warnings (trace world0) ++
      [Warn_request_greater_than_buffer
         (frames_requested stream_example (-1)) 256].
Proof.
  apply (AudioCallback_negative_request_wraps stream_example (-1) world0);
    cbn; lia.
Defined.

(** X16: a callback that arrives after [CloseDevice] pulls nothing: the recorded
    size is zero by then, and the array it passes to [ReadFrames] is the one
    the stream had, which [CloseDevice] did not free. *)
Theorem AudioCallback_after_CloseDevice_pulls_nothing (s : SDLAudioStream)
    (w : World) :
  0 < m_output_channels s ->
  exists s' w1,
    CloseDevice s w = Done s' w1 /\
    freed (trace w1) = freed (trace w) /\
    forall additional_amount w2,
    exists es,
      AudioCallback s' additional_amount w2 =
        Done tt (log (es ++ [Call_ReadFrames (m_sample_buffer s) 0]) w2) /\
      frames_pulled es = [].
Proof.
  intros Hc. eexists. eexists. split; [apply CloseDevice_run|].
  split.
  { rewrite trace_log, freed_app. cbn. now rewrite app_nil_r. }
  intros a w2.
  set (s' := mkStream _ _ _ _ _ _ _).
  assert (Hc' : 0 < m_output_channels s') by exact Hc.
  rewrite AudioCallback_run by exact Hc'.
  pose proof (frames_requested_range s' a Hc') as Hr.
  change (m_sample_buffer_size s') with 0.
  change (m_sample_buffer s') with (m_sample_buffer s).
  rewrite Z.min_r by lia.
  eexists. split; [reflexivity|].
  now destruct (_ >? _).
Qed.

Lemma AudioCallback_after_CloseDevice_pulls_nothing_witness :
  exists s' w1,
    CloseDevice stream_example world0 = Done s' w1 /\
    freed (trace w1) = freed (trace world0) /\
    forall additional_amount w2,
    exists es,
      AudioCallback s' additional_amount w2 =
        Done tt (log (es ++ [Call_ReadFrames (Some 256) 0]) w2) /\
      frames_pulled es = [].
Proof.
  apply (AudioCallback_after_CloseDevice_pulls_nothing stream_example world0).
  reflexivity.
Defined.
